(** * Pod rendering in k9s: phase classification and resource aggregation

    A shallow embedding of [internal/render/pod.go] together with the small
    part of the Kubernetes API types it reads, followed by the properties
    claimed of it. *)

From Stdlib Require Import ZArith String List Lia DecimalString.
From stdpp Require Import base option gmap strings list.

Local Open Scope string_scope.
Local Open Scope Z_scope.

(** ** Go runtime: pointers, faults, machine integers *)

(** A Go pointer that the code compares with [nil].  The pointee is kept in
    the pointer: no pointer of this file is shared and written through. *)
Inductive ptr (A : Type) : Type :=
| nil_ptr : ptr A
| ref : A -> ptr A.
Arguments nil_ptr {A}.
Arguments ref {A} _.

Definition is_nil {A} (p : ptr A) : bool :=
  match p with nil_ptr => true | ref _ => false end.

(** Dereferencing: [None] is the run-time fault of a nil dereference.  The
    fallible functions below live in the [option] monad, [None] = panic. *)
Definition deref {A} (p : ptr A) : option A :=
  match p with nil_ptr => None | ref a => Some a end.

(** Go's [int] is 64 bits wide on the platforms k9s is built for. *)
Definition wrap64 (z : Z) : Z := (z + 2 ^ 63) mod 2 ^ 64 - 2 ^ 63.
Definition int_add (a b : Z) : Z := wrap64 (a + b).

(** Go's [len] of a slice. *)
Definition len {A} (l : list A) : Z := Z.of_nat (length l).

Definition nonempty (s : string) : bool := negb (String.eqb s "").

Module strconv.
(** [strconv.Itoa]: the decimal representation, with a leading minus sign
      for negative numbers. *)
Definition Itoa (i : Z) : string := NilZero.string_of_int (Z.to_int i).
End strconv.

(** ** k8s.io/apimachinery/pkg/api/resource *)

Module resource.
(** A [Quantity] is a fixed-point number whose finest scale is nano (10^-9);
      it is kept here as its count of nano units.  [Add] is exact: the
      library switches to arbitrary precision instead of wrapping. *)
Record Quantity : Type := mkQuantity { nanos : Z }.

(** The zero value, [resource.Quantity{}], also what [new] allocates. *)
Definition zero : Quantity := mkQuantity 0.

Definition Add (q y : Quantity) : Quantity := mkQuantity (nanos q + nanos y).

(** Division by a power of ten, rounded away from zero when inexact. *)
Definition scale_away (x d : Z) : Z :=
    if Z.rem x d =? 0 then Z.quot x d else Z.quot x d + Z.sgn x.

Definition Value (q : Quantity) : Z := scale_away (nanos q) 1000000000.
Definition MilliValue (q : Quantity) : Z := scale_away (nanos q) 1000000.

(** [p.Add(y)] and [p.Reset()] through a pointer receiver. *)
Definition Add_at (p : ptr Quantity) (y : Quantity) : option (ptr Quantity) :=
    q ← deref p; Some (ref (Add q y)).
Definition Reset_at (p : ptr Quantity) : option (ptr Quantity) :=
    _ ← deref p; Some (ref zero).
Definition MilliValue_at (p : ptr Quantity) : option Z :=
    q ← deref p; Some (MilliValue q).
Definition Value_at (p : ptr Quantity) : option Z :=
    q ← deref p; Some (Value q).
End resource.
Import resource.

(** ** k8s.io/api/core/v1 *)

Module v1.
Definition ResourceName := string.
Definition ResourceCPU : ResourceName := "cpu".
Definition ResourceMemory : ResourceName := "memory".

(** [ResourceList] is [map[ResourceName]resource.Quantity]; the nil map and
      the empty map both have length 0 and are not told apart by the code. *)
Abbreviation ResourceList := (gmap string Quantity).

(** [Cpu()] and [Memory()] return the address of a copy of the entry, or of
      a fresh zero quantity when the key is absent: never nil. *)
Definition Cpu (rl : ResourceList) : ptr Quantity :=
    match rl !! ResourceCPU with
    | Some val => ref val
    | None => ref zero
    end.
Definition Memory (rl : ResourceList) : ptr Quantity :=
    match rl !! ResourceMemory with
    | Some val => ref val
    | None => ref zero
    end.

Module ResourceRequirements.
Record t : Type := mk { Limits : ResourceList; Requests : ResourceList }.
End ResourceRequirements.

Module Container.
Record t : Type := mk { Name : string; Resources : ResourceRequirements.t }.
End Container.

Module ContainerStateWaiting.
Record t : Type := mk { Reason : string }.
End ContainerStateWaiting.

Module ContainerStateRunning.
Record t : Type := mk { StartedAt : Z }.
End ContainerStateRunning.

Module ContainerStateTerminated.
(** [ExitCode] and [Signal] are [int32]. *)
Record t : Type := mk { ExitCode : Z; Signal : Z; Reason : string }.
End ContainerStateTerminated.

Module ContainerState.
(** Three nullable pointers, as in the API type: nothing in the type
        forbids several of them to be set. *)
Record t : Type := mk {
      Waiting : ptr ContainerStateWaiting.t;
      Running : ptr ContainerStateRunning.t;
      Terminated : ptr ContainerStateTerminated.t }.
End ContainerState.

Module ContainerStatus.
(** [RestartCount] is [int32]. *)
Record t : Type := mk {
      Name : string;
      State : ContainerState.t;
      Ready : bool;
      RestartCount : Z }.
End ContainerStatus.

Module PodSpec.
Record t : Type := mk {
      InitContainers : list Container.t;
      Containers : list Container.t;
      NodeName : string }.
End PodSpec.

Module PodStatus.
Record t : Type := mk {
      Phase : string;
      Reason : string;
      PodIP : string;
      InitContainerStatuses : list ContainerStatus.t;
      ContainerStatuses : list ContainerStatus.t;
      QOSClass : string }.
End PodStatus.

Definition PodQOSGuaranteed : string := "Guaranteed".
Definition PodQOSBurstable : string := "Burstable".

Module ObjectMeta.
(** Times are kept as seconds since the epoch. *)
Record t : Type := mk {
      Name : string;
      Namespace : string;
      CreationTimestamp : Z;
      DeletionTimestamp : ptr Z;
      Labels : gmap string string }.
End ObjectMeta.

Module Pod.
Record t : Type := mk {
      Meta : ObjectMeta.t;
      Spec : PodSpec.t;
      Status : PodStatus.t }.
End Pod.
End v1.
Import v1.

(** ** k8s.io/metrics/pkg/apis/metrics/v1beta1 *)

Module mv1beta1.
Module ContainerMetrics.
Record t : Type := mk { Name : string; Usage : ResourceList }.
End ContainerMetrics.

Module PodMetrics.
Record t : Type := mk { Containers : list ContainerMetrics.t }.
End PodMetrics.
End mv1beta1.
Import mv1beta1.

(** ** internal/client *)

Module client.
(** Modelled from the spec: [client.ToMB] is declared outside [pod.go]; memory
    is displayed in MiB, so a byte count is divided by 1024 * 1024 with Go's
    integer division, which truncates toward zero. *)
Definition megaByte : Z := 1024 * 1024.
Definition ToMB (v : Z) : Z := Z.quot v megaByte.
End client.

(** ** internal/render: what [pod.go] takes from the rest of the package *)

(** Modelled from the spec: the status labels [Completed], [Running] and
    [Terminating] are constants of the package declared outside [pod.go]; the
    spec gives their text. *)
Definition Completed : string := "Completed".
Definition Running : string := "Running".
Definition Terminating : string := "Terminating".

(** The display helpers that [pod.go] calls but does not define.  Their
    results are opaque text; the development holds for any choice of them.
    [percentage v1 v2] is the text of [v1 / v2 * 100] for a non-zero [v2] and
    [ratio v1 v2] the text of a request:limit pair. *)
Class Helpers : Type := {
  NAValue : string;
  ToMc : Z -> string;
  ToMi : Z -> string;
  percentage : Z -> Z -> string;
  ratio : Z -> Z -> string;
  na : string -> string;
  mapToStr : gmap string string -> string;
  asStatus : option string -> string;
  toAge : Z -> string;
  MetaFQN : ObjectMeta.t -> string }.

Module metric.
Record t : Type := mk { cpu : string; mem : string; cpuLim : string; memLim : string }.
End metric.

(** Modelled from the spec: [noMetric] is declared outside [pod.go]; without
    a usage snapshot the current-usage fields and all four percentages are
    the "not available" sentinel. *)
Definition noMetric `{Helpers} : metric.t :=
  metric.mk NAValue NAValue NAValue NAValue.

(** Modelled from the spec: [client.ToPercentageStr] is declared outside
    [pod.go]; a zero denominator yields the "not available" sentinel for
    that field, otherwise the field shows [v1 / v2 * 100]. *)
Definition ToPercentageStr `{Helpers} (v1 v2 : Z) : string :=
  if v2 =? 0 then NAValue else percentage v1 v2.

Definition qualifiedResource := string.
Definition requestCPU : qualifiedResource := "rcpu".
Definition requestMEM : qualifiedResource := "rmem".
Definition limitCPU : qualifiedResource := "lcpu".
Definition limitMEM : qualifiedResource := "lmem".

(** [resources] is [map[qualifiedResource]*resource.Quantity]; [nil_ptr] is
    the nil map. *)
Abbreviation resources := (ptr (gmap string (ptr Quantity))).

(** Modelled from the spec: [ToResourcesMc] and [ToResourcesMi] are declared
    outside [pod.go]; they print the request:limit column, and a missing
    quantity is displayed as the "not available" sentinel. *)
Definition ToResources `{Helpers} (unit : Quantity -> Z)
    (rk lk : qualifiedResource) (res : resources) : string :=
  match res with
  | nil_ptr => NAValue
  | ref m =>
    match m !! rk, m !! lk with
    | Some (ref rq), Some (ref lq) => ratio (unit rq) (unit lq)
    | _, _ => NAValue
    end
  end.
Definition ToResourcesMc `{Helpers} (res : resources) : string :=
  ToResources MilliValue requestCPU limitCPU res.
Definition ToResourcesMi `{Helpers} (res : resources) : string :=
  ToResources (fun q => client.ToMB (Value q)) requestMEM limitMEM res.

(** ** internal/render/pod.go *)

(** [diagnose]: the error is its message, [None] is the nil error.  The
    format verb [%d] prints an [int] as [strconv.Itoa] does. *)
Definition diagnose (phase : string) (cr ct : Z) : option string :=
  if String.eqb phase Completed then None
  else if negb (cr =? ct) || (ct =? 0) then
    Some ("container ready check failed: " +:+ strconv.Itoa cr
          +:+ " of " +:+ strconv.Itoa ct)
  else None.

Definition containerResources (co : Container.t) : ptr Quantity * ptr Quantity :=
  let req := ResourceRequirements.Requests (Container.Resources co) in
  let limit := ResourceRequirements.Limits (Container.Resources co) in
  if negb (size req =? 0)%nat then (Cpu req, Memory req)
  else if negb (size limit =? 0)%nat then (Cpu limit, Memory limit)
  else (nil_ptr, nil_ptr).

Definition containerLimits (co : Container.t) : ptr Quantity * ptr Quantity :=
  let limit := ResourceRequirements.Limits (Container.Resources co) in
  if (size limit =? 0)%nat then (nil_ptr, nil_ptr)
  else (Cpu limit, Memory limit).

(** [if p != nil { acc.Add( *p ) }] *)
Definition add_if_set (acc p : ptr Quantity) : option (ptr Quantity) :=
  if negb (is_nil p) then y ← deref p; Add_at acc y else Some acc.

(** The loop of [resourceLimits] from the container at hand on, with the
    running totals; the first branch is the [break]. *)
Fixpoint resourceLimits_loop (cc : list Container.t) (cpu mem : ptr Quantity)
    : option (ptr Quantity * ptr Quantity) :=
  match cc with
  | [] => Some (cpu, mem)
  | co :: cc' =>
    let limit := ResourceRequirements.Limits (Container.Resources co) in
    if (size limit =? 0)%nat then
      cpu ← Reset_at cpu; mem ← Reset_at mem; Some (cpu, mem)
    else
      cpu ← add_if_set cpu (Cpu limit);
      mem ← add_if_set mem (Memory limit);
      resourceLimits_loop cc' cpu mem
  end.

Definition resourceLimits (cc : list Container.t)
    : option (ptr Quantity * ptr Quantity) :=
  resourceLimits_loop cc (ref zero) (ref zero).

(** The loop of [resourceRequests], likewise. *)
Fixpoint resourceRequests_loop (cc : list Container.t) (cpu mem : ptr Quantity)
    : option (ptr Quantity * ptr Quantity) :=
  match cc with
  | [] => Some (cpu, mem)
  | co :: cc' =>
    let '(c, m) := containerResources co in
    if is_nil c || is_nil m then
      cpu ← Reset_at cpu; mem ← Reset_at mem; Some (cpu, mem)
    else
      cpu ← add_if_set cpu c;
      mem ← add_if_set mem m;
      resourceRequests_loop cc' cpu mem
  end.

Definition resourceRequests (cc : list Container.t)
    : option (ptr Quantity * ptr Quantity) :=
  resourceRequests_loop cc (ref zero) (ref zero).

Definition podLimits (spec : PodSpec.t) : option (ptr Quantity * ptr Quantity) :=
  '(cc, cm) ← resourceLimits (PodSpec.Containers spec);
  '(ic, im) ← resourceLimits (PodSpec.InitContainers spec);
  icv ← deref ic; cc ← Add_at cc icv;
  imv ← deref im; cm ← Add_at cm imv;
  Some (cc, cm).

Definition podRequests (spec : PodSpec.t) : option (ptr Quantity * ptr Quantity) :=
  '(cc, cm) ← resourceRequests (PodSpec.Containers spec);
  '(ic, im) ← resourceRequests (PodSpec.InitContainers spec);
  icv ← deref ic; cc ← Add_at cc icv;
  imv ← deref im; cm ← Add_at cm imv;
  Some (cc, cm).

(** The loop of [currentRes]; [cpu] and [mem] are the named results, values
    that start at zero. *)
Fixpoint currentRes_loop (cos : list ContainerMetrics.t) (cpu mem : Quantity)
    : option (Quantity * Quantity) :=
  match cos with
  | [] => Some (cpu, mem)
  | co :: cos' =>
    let c := Cpu (ContainerMetrics.Usage co) in
    let m := Memory (ContainerMetrics.Usage co) in
    cv ← deref c;
    mv ← deref m;
    currentRes_loop cos' (Add cpu cv) (Add mem mv)
  end.

Definition currentRes (mx : ptr PodMetrics.t) : option (Quantity * Quantity) :=
  match mx with
  | nil_ptr => Some (zero, zero)
  | ref mxv => currentRes_loop (PodMetrics.Containers mxv) zero zero
  end.

(** [gatherPodMX]: the pod is passed by address and the only caller passes
    the address of a local, so it is taken by value here.  [coMetrix] is
    filled and never read, as in the source. *)
Definition gatherPodMX `{Helpers} (pod : Pod.t) (mx : ptr PodMetrics.t)
    : option (metric.t * metric.t * resources) :=
  let c := noMetric in
  let p := noMetric in
  match mx with
  | nil_ptr => Some (c, p, nil_ptr)
  | ref mxv =>
    let coMetrix : gmap string ResourceList :=
      foldl (fun acc cm => <[ContainerMetrics.Name cm := ContainerMetrics.Usage cm]> acc)
            ∅ (PodMetrics.Containers mxv) in
    '(cpu, mem) ← currentRes mx;
    let c := metric.mk (ToMc (MilliValue cpu)) (ToMi (client.ToMB (Value mem))) "" "" in
    '(rc, rm) ← podRequests (Pod.Spec pod);
    '(lc, lm) ← podLimits (Pod.Spec pod);
    let r : gmap string (ptr Quantity) :=
      <[limitMEM := lm]> (<[limitCPU := lc]>
        (<[requestMEM := rm]> (<[requestCPU := rc]> ∅))) in
    rcv ← MilliValue_at rc;
    rmv ← Value_at rm;
    lcv ← MilliValue_at lc;
    lmv ← Value_at lm;
    let p := metric.mk
      (ToPercentageStr (MilliValue cpu) rcv)
      (ToPercentageStr (client.ToMB (Value mem)) (client.ToMB rmv))
      (ToPercentageStr (MilliValue cpu) lcv)
      (ToPercentageStr (client.ToMB (Value mem)) (client.ToMB lmv)) in
    Some (c, p, ref r)
  end.

Definition mapQOS (class : string) : string :=
  if String.eqb class PodQOSGuaranteed then "GA"
  else if String.eqb class PodQOSBurstable then "BU"
  else "BE".

(** [Statuses] returns (ready, terminated, restarts). *)
Definition Statuses (ss : list ContainerStatus.t) : Z * Z * Z :=
  foldl (fun '(cr, ct, rc) c =>
           let ct := if negb (is_nil (ContainerState.Terminated (ContainerStatus.State c)))
                     then int_add ct 1 else ct in
           let cr := if ContainerStatus.Ready c then int_add cr 1 else cr in
           let rc := int_add rc (ContainerStatus.RestartCount c) in
           (cr, ct, rc))
        (0, 0, 0) ss.

Definition checkContainerStatus (cs : ContainerStatus.t) (i initCount : Z) : string :=
  let st := ContainerStatus.State cs in
  let progress := "Init:" +:+ strconv.Itoa i +:+ "/" +:+ strconv.Itoa initCount in
  match ContainerState.Terminated st with
  | ref t =>
    if ContainerStateTerminated.ExitCode t =? 0 then ""
    else if nonempty (ContainerStateTerminated.Reason t) then
      "Init:" +:+ ContainerStateTerminated.Reason t
    else if negb (ContainerStateTerminated.Signal t =? 0) then
      "Init:Signal:" +:+ strconv.Itoa (ContainerStateTerminated.Signal t)
    else "Init:ExitCode:" +:+ strconv.Itoa (ContainerStateTerminated.ExitCode t)
  | nil_ptr =>
    match ContainerState.Waiting st with
    | ref w =>
      if nonempty (ContainerStateWaiting.Reason w)
         && negb (String.eqb (ContainerStateWaiting.Reason w) "PodInitializing")
      then "Init:" +:+ ContainerStateWaiting.Reason w
      else progress
    | nil_ptr => progress
    end
  end.

(** The [range] loop of [initContainerPhase] from index [i] on. *)
Fixpoint initContainerPhase_loop (css : list ContainerStatus.t) (i initCount : Z)
    (status : string) : string * bool :=
  match css with
  | [] => (status, false)
  | cs :: css' =>
    let s := checkContainerStatus cs i initCount in
    if String.eqb s "" then initContainerPhase_loop css' (i + 1) initCount status
    else (s, true)
  end.

Definition initContainerPhase (st : PodStatus.t) (initCount : Z) (status : string)
    : string * bool :=
  initContainerPhase_loop (PodStatus.InitContainerStatuses st) 0 initCount status.

(** The body of the loop of [containerPhase]: one [switch] on the status at
    hand, updating the label and the running flag. *)
Definition containerPhase_body (cs : ContainerStatus.t) (acc : string * bool)
    : string * bool :=
  let '(status, running) := acc in
  let st := ContainerStatus.State cs in
  let later :=
    match ContainerState.Terminated st with
    | ref t =>
      if nonempty (ContainerStateTerminated.Reason t) then
        (ContainerStateTerminated.Reason t, running)
      else if negb (ContainerStateTerminated.Signal t =? 0) then
        ("Signal:" +:+ strconv.Itoa (ContainerStateTerminated.Signal t), running)
      else
        ("ExitCode:" +:+ strconv.Itoa (ContainerStateTerminated.ExitCode t), running)
    | nil_ptr =>
      if ContainerStatus.Ready cs && negb (is_nil (ContainerState.Running st))
      then (status, true)
      else (status, running)
    end in
  match ContainerState.Waiting st with
  | ref w =>
    if nonempty (ContainerStateWaiting.Reason w)
    then (ContainerStateWaiting.Reason w, running)
    else later
  | nil_ptr => later
  end.

(** [for i := len - 1; i >= 0; i--]: [n] is [i + 1].  The index is in range
    at every iteration, so the lookup never misses. *)
Fixpoint containerPhase_loop (css : list ContainerStatus.t) (n : nat)
    (acc : string * bool) : string * bool :=
  match n with
  | O => acc
  | S i =>
    match css !! i with
    | Some cs => containerPhase_loop css i (containerPhase_body cs acc)
    | None => acc
    end
  end.

Definition containerPhase (st : PodStatus.t) (status : string) : string * bool :=
  let css := PodStatus.ContainerStatuses st in
  containerPhase_loop css (length css) (status, false).

Definition Phase (po : Pod.t) : string :=
  let st := Pod.Status po in
  let deleting := negb (is_nil (ObjectMeta.DeletionTimestamp (Pod.Meta po))) in
  let status := PodStatus.Phase st in
  if nonempty (PodStatus.Reason st) && deleting
     && String.eqb (PodStatus.Reason st) "NodeLost"
  then "Unknown"
  else
    let status := if nonempty (PodStatus.Reason st) then PodStatus.Reason st else status in
    let '(status, ok) :=
      initContainerPhase st (len (PodSpec.InitContainers (Pod.Spec po))) status in
    if ok then status
    else
      let '(status, ok) := containerPhase st status in
      let status := if ok && String.eqb status Completed then Running else status in
      if negb deleting then status else Terminating.

Module Row.
Record t : Type := mk { ID : string; Fields : list string }.
End Row.

(** [Render] after the type assertion and the conversion of the raw object
    into [po], both of which belong to the caller's side of the boundary.
    [None] is a run-time fault, not the error result. *)
Definition Render `{Helpers} (po : Pod.t) (mx : ptr PodMetrics.t) : option Row.t :=
  let ss := PodStatus.ContainerStatuses (Pod.Status po) in
  let '(cr, _, rc) := Statuses ss in
  '(c, perc, res) ← gatherPodMX po mx;
  let phase := Phase po in
  Some (Row.mk (MetaFQN (Pod.Meta po))
    [ ObjectMeta.Namespace (Pod.Meta po);
      ObjectMeta.Name (Pod.Meta po);
      "●";
      strconv.Itoa cr +:+ "/" +:+ strconv.Itoa (len ss);
      strconv.Itoa rc;
      phase;
      ToResourcesMc res;
      ToResourcesMi res;
      metric.cpu c;
      metric.mem c;
      metric.cpu perc;
      metric.mem perc;
      metric.cpuLim perc;
      metric.memLim perc;
      na (PodStatus.PodIP (Pod.Status po));
      na (PodSpec.NodeName (Pod.Spec po));
      mapQOS (PodStatus.QOSClass (Pod.Status po));
      mapToStr (ObjectMeta.Labels (Pod.Meta po));
      asStatus (diagnose phase cr (len ss));
      toAge (ObjectMeta.CreationTimestamp (Pod.Meta po)) ]).

(** The column names of [Header], in order; [Render] fills one field per
    column. *)
Definition Header : list string :=
  [ "NAMESPACE"; "NAME"; "PF"; "READY"; "RESTARTS"; "STATUS"; "CPU(R:L)";
    "MEM(R:L)"; "CPU"; "MEM"; "%CPU/R"; "%MEM/R"; "%CPU/L"; "%MEM/L"; "IP";
    "NODE"; "QOS"; "LABELS"; "VALID"; "AGE" ].

(** The field of a row under a named column. *)
Definition column (name : string) (r : Row.t) : option string :=
  i ← list_find (String.eqb name) Header;
  Row.Fields r !! i.1.

(** ** The specification's reading of the aggregation rule *)

(** The entry of a resource list, zero when the list has none. *)
Definition quantity_of (rl : ResourceList) (name : ResourceName) : Quantity :=
  default zero (rl !! name).

(** The (cpu, mem) pair a container contributes: its request pair if it
    declares any request (its request list is not empty), else its limit pair
    if it declares any limit, else nothing (the container is undefined).  An
    entry that the chosen list lacks counts as zero. *)
Definition contribution (co : Container.t) : option (Quantity * Quantity) :=
  let req := ResourceRequirements.Requests (Container.Resources co) in
  let limit := ResourceRequirements.Limits (Container.Resources co) in
  if decide (req ≠ ∅) then
    Some (quantity_of req ResourceCPU, quantity_of req ResourceMemory)
  else if decide (limit ≠ ∅) then
    Some (quantity_of limit ResourceCPU, quantity_of limit ResourceMemory)
  else None.

Definition qsum (qs : list Quantity) : Quantity := foldr Add zero qs.

(** The total of a scope: the containers are taken in order and their pairs
    added up; the first undefined one makes both totals zero whatever
    follows it. *)
Fixpoint aggregate (cc : list Container.t) (cpu mem : Quantity) : Quantity * Quantity :=
  match cc with
  | [] => (cpu, mem)
  | co :: cc' =>
    match contribution co with
    | None => (zero, zero)
    | Some (c, m) => aggregate cc' (Add cpu c) (Add mem m)
    end
  end.

(** A container lacks a defined request for cpu or for mem. *)
Definition lacks_request (co : Container.t) : Prop :=
  let req := ResourceRequirements.Requests (Container.Resources co) in
  req !! ResourceCPU = None ∨ req !! ResourceMemory = None.

(** A container that declares neither a request nor a limit. *)
Definition undeclared (co : Container.t) : Prop :=
  ResourceRequirements.Requests (Container.Resources co) = ∅
  ∧ ResourceRequirements.Limits (Container.Resources co) = ∅.

(** Sample containers: 250m cpu and 64Mi of memory, as requests, as limits
    only, and a container that declares nothing. *)
Definition cpu_250m : Quantity := mkQuantity 250000000.
Definition mem_64Mi : Quantity := mkQuantity (64 * 1024 * 1024 * 1000000000).
Definition sample_list : ResourceList :=
  <[ResourceMemory := mem_64Mi]> (<[ResourceCPU := cpu_250m]> ∅).
Definition co_requests : Container.t :=
  Container.mk "app" (ResourceRequirements.mk ∅ sample_list).
Definition co_limits_only : Container.t :=
  Container.mk "sidecar" (ResourceRequirements.mk sample_list ∅).
Definition co_bare : Container.t :=
  Container.mk "bare" (ResourceRequirements.mk ∅ ∅).
Definition co_cpu_only : Container.t :=
  Container.mk "worker"
    (ResourceRequirements.mk ∅ (<[ResourceCPU := cpu_250m]> ∅)).

(** ** The specification's reading of the phase rules *)

(** An init container that terminated with exit code 0. *)
Definition init_done (cs : ContainerStatus.t) : bool :=
  match ContainerState.Terminated (ContainerStatus.State cs) with
  | ref t => ContainerStateTerminated.ExitCode t =? 0
  | nil_ptr => false
  end.

(** The label of an init container at index [i] of [n] that is not done:
    one constructor per case of the rule. *)
Inductive init_rule (cs : ContainerStatus.t) (i n : Z) : string -> Prop :=
| init_reason t :
    ContainerState.Terminated (ContainerStatus.State cs) = ref t ->
    ContainerStateTerminated.ExitCode t ≠ 0 ->
    ContainerStateTerminated.Reason t ≠ "" ->
    init_rule cs i n ("Init:" +:+ ContainerStateTerminated.Reason t)
| init_signal t :
    ContainerState.Terminated (ContainerStatus.State cs) = ref t ->
    ContainerStateTerminated.ExitCode t ≠ 0 ->
    ContainerStateTerminated.Reason t = "" ->
    ContainerStateTerminated.Signal t ≠ 0 ->
    init_rule cs i n
      ("Init:Signal:" +:+ strconv.Itoa (ContainerStateTerminated.Signal t))
| init_exit t :
    ContainerState.Terminated (ContainerStatus.State cs) = ref t ->
    ContainerStateTerminated.ExitCode t ≠ 0 ->
    ContainerStateTerminated.Reason t = "" ->
    ContainerStateTerminated.Signal t = 0 ->
    init_rule cs i n
      ("Init:ExitCode:" +:+ strconv.Itoa (ContainerStateTerminated.ExitCode t))
| init_waiting w :
    ContainerState.Terminated (ContainerStatus.State cs) = nil_ptr ->
    ContainerState.Waiting (ContainerStatus.State cs) = ref w ->
    ContainerStateWaiting.Reason w ≠ "" ->
    ContainerStateWaiting.Reason w ≠ "PodInitializing" ->
    init_rule cs i n ("Init:" +:+ ContainerStateWaiting.Reason w)
| init_progress :
    ContainerState.Terminated (ContainerStatus.State cs) = nil_ptr ->
    (∀ w, ContainerState.Waiting (ContainerStatus.State cs) = ref w ->
          ContainerStateWaiting.Reason w = ""
          ∨ ContainerStateWaiting.Reason w = "PodInitializing") ->
    init_rule cs i n
      ("Init:" +:+ strconv.Itoa i +:+ "/" +:+ strconv.Itoa n).

(** The pod is being deleted and its node is lost: the case that returns
    before any container is looked at. *)
Definition node_lost (po : Pod.t) : bool :=
  negb (is_nil (ObjectMeta.DeletionTimestamp (Pod.Meta po)))
  && String.eqb (PodStatus.Reason (Pod.Status po)) "NodeLost".

(** The label a regular container assigns, if it matches a labelling case:
    Waiting with a non-empty reason, Terminated with a reason, Terminated
    without one. *)
Definition labelling (cs : ContainerStatus.t) : option string :=
  let st := ContainerStatus.State cs in
  let terminated :=
    match ContainerState.Terminated st with
    | ref t =>
      if nonempty (ContainerStateTerminated.Reason t) then
        Some (ContainerStateTerminated.Reason t)
      else if negb (ContainerStateTerminated.Signal t =? 0) then
        Some ("Signal:" +:+ strconv.Itoa (ContainerStateTerminated.Signal t))
      else
        Some ("ExitCode:" +:+ strconv.Itoa (ContainerStateTerminated.ExitCode t))
    | nil_ptr => None
    end in
  match ContainerState.Waiting st with
  | ref w =>
    if nonempty (ContainerStateWaiting.Reason w)
    then Some (ContainerStateWaiting.Reason w)
    else terminated
  | nil_ptr => terminated
  end.

(** The label of the lowest-indexed container that matches a labelling
    case. *)
Fixpoint first_label (css : list ContainerStatus.t) : option string :=
  match css with
  | [] => None
  | cs :: css' =>
    match labelling cs with
    | Some l => Some l
    | None => first_label css'
    end
  end.

(** A ready, running container that matches no labelling case. *)
Definition saw_running (cs : ContainerStatus.t) : bool :=
  match labelling cs with
  | Some _ => false
  | None =>
    ContainerStatus.Ready cs
    && negb (is_nil (ContainerState.Running (ContainerStatus.State cs)))
  end.

(** The message of the readiness diagnostic. *)
Definition ready_check_failed (cr ct : Z) : string :=
  "container ready check failed: " +:+ strconv.Itoa cr +:+ " of " +:+ strconv.Itoa ct.

(** ** The specification's reading of the usage snapshot *)

Definition usage_cpu (cm : ContainerMetrics.t) : Quantity :=
  quantity_of (ContainerMetrics.Usage cm) ResourceCPU.
Definition usage_mem (cm : ContainerMetrics.t) : Quantity :=
  quantity_of (ContainerMetrics.Usage cm) ResourceMemory.

(** ** Sample pods *)

Definition st_running : ContainerState.t :=
  ContainerState.mk nil_ptr (ref (ContainerStateRunning.mk 1700000000)) nil_ptr.
Definition st_terminated (exit signal : Z) (reason : string) : ContainerState.t :=
  ContainerState.mk nil_ptr nil_ptr (ref (ContainerStateTerminated.mk exit signal reason)).
Definition st_waiting (reason : string) : ContainerState.t :=
  ContainerState.mk (ref (ContainerStateWaiting.mk reason)) nil_ptr nil_ptr.

Definition cs_ready : ContainerStatus.t := ContainerStatus.mk "app" st_running true 0.
Definition cs_init_ok : ContainerStatus.t :=
  ContainerStatus.mk "init-0" (st_terminated 0 0 "Completed") false 0.
Definition cs_init_failed : ContainerStatus.t :=
  ContainerStatus.mk "init-1" (st_terminated 1 0 "") false 2.
Definition cs_init_waiting : ContainerStatus.t :=
  ContainerStatus.mk "init-2" (st_waiting "ImagePullBackOff") false 0.

Definition sample_pod (deleted : ptr Z) (reason : string)
    (inits : list ContainerStatus.t) (cc : list Container.t) : Pod.t :=
  Pod.mk (ObjectMeta.mk "web-0" "default" 1700000000 deleted ∅)
         (PodSpec.mk (map (fun cs => co_bare) inits) cc "node-1")
         (PodStatus.mk "Running" reason "10.0.0.7" inits [cs_ready] "Burstable").

(** A snapshot with one entry of 500m cpu whose name matches no container
    of the sample pods. *)
Definition sample_usage : PodMetrics.t :=
  PodMetrics.mk
    [ContainerMetrics.mk "other" (<[ResourceCPU := mkQuantity 500000000]> ∅)].

(** One choice of the display helpers, to run the model on the samples. *)
Definition sample_helpers : Helpers := {|
  NAValue := "n/a";
  ToMc := strconv.Itoa;
  ToMi := strconv.Itoa;
  percentage := fun v1 v2 => strconv.Itoa (Z.quot (v1 * 100) v2);
  ratio := fun v1 v2 => strconv.Itoa v1 +:+ ":" +:+ strconv.Itoa v2;
  na := fun s => if nonempty s then s else "n/a";
  mapToStr := fun _ => "";
  asStatus := fun e => default "" e;
  toAge := strconv.Itoa;
  MetaFQN := fun m => ObjectMeta.Namespace m +:+ "/" +:+ ObjectMeta.Name m |}.

(** ** Readings used by the further properties *)

(** The (cpu, mem) pair a container contributes to the limit totals: its
    limit pair if it declares any limit, else nothing.  Requests play no
    part. *)
Definition limit_contribution (co : Container.t) : option (Quantity * Quantity) :=
  let limit := ResourceRequirements.Limits (Container.Resources co) in
  if decide (limit ≠ ∅) then
    Some (quantity_of limit ResourceCPU, quantity_of limit ResourceMemory)
  else None.

(** Running totals over a scope for any extraction rule [f]: the first
    container without a pair makes both totals zero. *)
Fixpoint aggregate_by (f : Container.t -> option (Quantity * Quantity))
    (cc : list Container.t) (cpu mem : Quantity) : Quantity * Quantity :=
  match cc with
  | [] => (cpu, mem)
  | co :: cc' =>
    match f co with
    | None => (zero, zero)
    | Some (c, m) => aggregate_by f cc' (Add cpu c) (Add mem m)
    end
  end.

(** The totals of a scope under rule [f]: the sums of all pairs if every
    container has one, zero otherwise. *)
Definition scope_total (f : Container.t -> option (Quantity * Quantity))
    (cc : list Container.t) : Quantity * Quantity :=
  match mapM f cc with
  | Some ps => (qsum ps.*1, qsum ps.*2)
  | None => (zero, zero)
  end.

(** The range of Go's [int] and of [int32]. *)
Definition in_int (z : Z) : Prop := - 2 ^ 63 ≤ z < 2 ^ 63.
Definition in_int32 (z : Z) : Prop := - 2 ^ 31 ≤ z < 2 ^ 31.

Definition is_terminated (cs : ContainerStatus.t) : bool :=
  negb (is_nil (ContainerState.Terminated (ContainerStatus.State cs))).

(** How many statuses satisfy [f]. *)
Definition count_if (f : ContainerStatus.t -> bool) (ss : list ContainerStatus.t) : Z :=
  Z.of_nat (length (List.filter f ss)).

Definition restart_sum (ss : list ContainerStatus.t) : Z :=
  foldr (fun cs acc => ContainerStatus.RestartCount cs + acc) 0 ss.

(** The label [Phase] starts from: the status reason when there is one,
    else the pod phase. *)
Definition base_label (po : Pod.t) : string :=
  if nonempty (PodStatus.Reason (Pod.Status po))
  then PodStatus.Reason (Pod.Status po)
  else PodStatus.Phase (Pod.Status po).

(** The keys of the resources map. *)
Definition resource_keys : list qualifiedResource :=
  [requestCPU; requestMEM; limitCPU; limitMEM].

(** Further samples: a container with requests and limits, a container whose
    state is terminated with reason "Completed", and a status that is
    waiting. *)
Definition co_both : Container.t :=
  Container.mk "db" (ResourceRequirements.mk sample_list sample_list).
Definition cs_completed : ContainerStatus.t :=
  ContainerStatus.mk "job" (st_terminated 0 0 "Completed") false 0.
Definition cs_crashing : ContainerStatus.t :=
  ContainerStatus.mk "web" (st_waiting "CrashLoopBackOff") false 7.
Definition pod_with (deleted : ptr Z) (reason : string)
    (inits css : list ContainerStatus.t) : Pod.t :=
  Pod.mk (ObjectMeta.mk "job-0" "default" 1700000000 deleted ∅)
         (PodSpec.mk (map (fun cs => co_bare) inits) [co_requests] "node-1")
         (PodStatus.mk "Running" reason "10.0.0.8" inits css "Burstable").

(** ** Properties of the aggregation *)

Lemma size_eqb_0 {A} (m : gmap string A) : (size m =? 0)%nat = true ↔ m = ∅.
Proof. rewrite Nat.eqb_eq. apply map_size_empty_iff. Qed.

Lemma size_eqb_0_false {A} (m : gmap string A) : (size m =? 0)%nat = false ↔ m ≠ ∅.
Proof.
  rewrite <- size_eqb_0. destruct (size m =? 0)%nat; split; congruence.
Qed.

Lemma Cpu_quantity_of rl : Cpu rl = ref (quantity_of rl ResourceCPU).
Proof. unfold Cpu, quantity_of. by destruct (rl !! ResourceCPU). Qed.

Lemma Memory_quantity_of rl : Memory rl = ref (quantity_of rl ResourceMemory).
Proof. unfold Memory, quantity_of. by destruct (rl !! ResourceMemory). Qed.

Lemma containerResources_contribution co :
  containerResources co =
  match contribution co with
  | Some (c, m) => (ref c, ref m)
  | None => (nil_ptr, nil_ptr)
  end.
Proof.
  unfold containerResources, contribution.
  destruct (size (ResourceRequirements.Requests _) =? 0)%nat eqn:Hreq; simpl.
  - apply size_eqb_0 in Hreq. rewrite decide_False by (intros ?; done).
    destruct (size (ResourceRequirements.Limits _) =? 0)%nat eqn:Hlim; simpl.
    + apply size_eqb_0 in Hlim. by rewrite decide_False by (intros ?; done).
    + apply size_eqb_0_false in Hlim. rewrite decide_True by done.
      by rewrite Cpu_quantity_of, Memory_quantity_of.
  - apply size_eqb_0_false in Hreq. rewrite decide_True by done.
    by rewrite Cpu_quantity_of, Memory_quantity_of.
Qed.

Lemma contribution_undeclared co : contribution co = None ↔ undeclared co.
Proof.
  unfold contribution, undeclared.
  repeat case_decide; split; try done; intros; tauto.
Qed.

Lemma resourceRequests_loop_aggregate cc cpu mem :
  resourceRequests_loop cc (ref cpu) (ref mem) =
  Some (ref (aggregate cc cpu mem).1, ref (aggregate cc cpu mem).2).
Proof.
  revert cpu mem. induction cc as [|co cc IH]; intros cpu mem; [done|].
  simpl. rewrite containerResources_contribution.
  destruct (contribution co) as [[c m]|]; simpl; [apply IH | done].
Qed.

Lemma Add_zero_l q : Add zero q = q.
Proof. by destruct q. Qed.

Lemma Add_zero_r q : Add q zero = q.
Proof. destruct q. unfold Add; simpl. apply (f_equal mkQuantity). lia. Qed.

Lemma Add_assoc a b c : Add (Add a b) c = Add a (Add b c).
Proof. unfold Add; simpl. apply (f_equal mkQuantity). lia. Qed.

Lemma Add_comm a b : Add a b = Add b a.
Proof. unfold Add. apply (f_equal mkQuantity). lia. Qed.

Lemma aggregate_defined cc ps cpu mem :
  mapM contribution cc = Some ps →
  aggregate cc cpu mem = (Add cpu (qsum ps.*1), Add mem (qsum ps.*2)).
Proof.
  revert ps cpu mem. induction cc as [|co cc IH]; intros ps cpu mem Hps; simpl in *.
  - injection Hps as <-. cbn. by rewrite !Add_zero_r.
  - destruct (contribution co) as [[c m]|]; [|done].
    cbn in Hps. destruct (mapM contribution cc) as [ps'|]; [|done].
    injection Hps as <-. rewrite (IH ps' _ _ eq_refl). cbn.
    by rewrite !Add_assoc.
Qed.

Lemma aggregate_undefined cc cpu mem :
  mapM contribution cc = None → aggregate cc cpu mem = (zero, zero).
Proof.
  revert cpu mem. induction cc as [|co cc IH]; intros cpu mem Hps; simpl in *.
  - done.
  - destruct (contribution co) as [[c m]|]; [|done].
    apply IH. cbn in Hps. by destruct (mapM contribution cc).
Qed.

Lemma aggregate_mapM cc :
  aggregate cc zero zero =
  match mapM contribution cc with
  | Some ps => (qsum ps.*1, qsum ps.*2)
  | None => (zero, zero)
  end.
Proof.
  destruct (mapM contribution cc) as [ps|] eqn:Hps.
  - rewrite (aggregate_defined _ _ _ _ Hps). by rewrite !Add_zero_l.
  - by apply aggregate_undefined.
Qed.

Lemma aggregate_undeclared cc co cpu mem :
  co ∈ cc → undeclared co → aggregate cc cpu mem = (zero, zero).
Proof.
  intros Hin Hco. apply contribution_undeclared in Hco.
  revert cpu mem. induction Hin as [co cc|co co' cc Hin IH]; intros cpu mem; simpl.
  - by rewrite Hco.
  - destruct (contribution co') as [[c m]|]; [apply IH, Hco | done].
Qed.

(** C2.  [resourceRequests] follows the extraction and aggregation rule: a
    container contributes its request pair if it declares any request, else
    its limit pair if it declares any limit, else it is undefined
    ([contribution]); the scope's totals are the running sums of the pairs,
    and at the first undefined container both are reset to zero and the
    containers after it are not looked at ([aggregate]).  Put otherwise, the
    totals are the sums of all pairs when every container is defined and
    zero when any is not. *)
Theorem resourceRequests_follows_rule (cc : list Container.t) :
  (∀ co, containerResources co =
         match contribution co with
         | Some (c, m) => (ref c, ref m)
         | None => (nil_ptr, nil_ptr)
         end)
  ∧ resourceRequests cc =
    Some (ref (aggregate cc zero zero).1, ref (aggregate cc zero zero).2)
  ∧ aggregate cc zero zero =
    match mapM contribution cc with
    | Some ps => (qsum ps.*1, qsum ps.*2)
    | None => (zero, zero)
    end.
Proof.
  split; [apply containerResources_contribution|].
  split; [apply resourceRequests_loop_aggregate | apply aggregate_mapM].
Qed.

(** C1, as amended.  If any single container of a scope declares neither a
    request nor a limit, the request totals of the scope returned by
    [resourceRequests] are exactly zero for both cpu and mem. *)
Theorem resourceRequests_undeclared_zero (cc : list Container.t) (co : Container.t) :
  co ∈ cc → undeclared co → resourceRequests cc = Some (ref zero, ref zero).
Proof.
  intros Hin Hco. unfold resourceRequests.
  rewrite resourceRequests_loop_aggregate.
  by rewrite (aggregate_undeclared _ _ _ _ Hin Hco).
Qed.

Lemma resourceRequests_undeclared_zero_witness :
  resourceRequests [co_requests; co_bare; co_limits_only] = Some (ref zero, ref zero).
Proof.
  apply (resourceRequests_undeclared_zero _ co_bare).
  - apply list_elem_of_further, list_elem_of_here.
  - split; reflexivity.
Defined.

(** A request list with a cpu entry and no mem entry is not reset either:
    the missing entry counts as zero. *)
Example resourceRequests_cpu_only :
  resourceRequests [co_cpu_only] = Some (ref cpu_250m, ref zero).
Proof. vm_compute. reflexivity. Qed.

(** C1, as stated, fails: a container that declares limits only lacks a
    defined request for cpu and for mem, and the totals of its scope are its
    limits, not zero. *)
Lemma resourceRequests_limits_only_nonzero :
  co_limits_only ∈ [co_limits_only]
  ∧ lacks_request co_limits_only
  ∧ resourceRequests [co_limits_only] = Some (ref cpu_250m, ref mem_64Mi)
  ∧ resourceRequests [co_limits_only] ≠ Some (ref zero, ref zero).
Proof.
  split; [apply list_elem_of_here|].
  split; [left; reflexivity|].
  split; [vm_compute; reflexivity | vm_compute; discriminate].
Qed.

(** ** Properties of the phase classifier *)

Lemma nonempty_true s : nonempty s = true ↔ s ≠ "".
Proof.
  unfold nonempty. rewrite negb_true_iff. apply String.eqb_neq.
Qed.

Lemma nonempty_false s : nonempty s = false ↔ s = "".
Proof.
  unfold nonempty. rewrite negb_false_iff. apply String.eqb_eq.
Qed.

Lemma Phase_unfold_node_lost po :
  nonempty (PodStatus.Reason (Pod.Status po))
  && negb (is_nil (ObjectMeta.DeletionTimestamp (Pod.Meta po)))
  && String.eqb (PodStatus.Reason (Pod.Status po)) "NodeLost"
  = node_lost po.
Proof.
  unfold node_lost.
  destruct (String.eqb_spec (PodStatus.Reason (Pod.Status po)) "NodeLost") as [->|];
    [|by rewrite !andb_false_r].
  by destruct (is_nil _).
Qed.

Lemma checkContainerStatus_done cs i n :
  init_done cs = true → checkContainerStatus cs i n = "".
Proof.
  unfold init_done, checkContainerStatus.
  destruct (ContainerState.Terminated _) as [|t]; [done|]. by intros ->.
Qed.

Lemma checkContainerStatus_rule cs i n l :
  init_rule cs i n l → checkContainerStatus cs i n = l.
Proof.
  unfold checkContainerStatus.
  destruct 1 as [t Ht He Hr|t Ht He Hr Hs|t Ht He Hr Hs|w Ht Hw Hr Hp|Ht Hw];
    rewrite Ht.
  - apply Z.eqb_neq in He. rewrite He.
    apply nonempty_true in Hr. by rewrite Hr.
  - apply Z.eqb_neq in He, Hs. rewrite He.
    apply nonempty_false in Hr. by rewrite Hr, Hs.
  - apply Z.eqb_neq in He. apply Z.eqb_eq in Hs. rewrite He.
    apply nonempty_false in Hr. by rewrite Hr, Hs.
  - rewrite Hw. apply nonempty_true in Hr. apply String.eqb_neq in Hp.
    by rewrite Hr, Hp.
  - destruct (ContainerState.Waiting _) as [|w]; [done|].
    destruct (Hw w eq_refl) as [Hr|Hr]; rewrite Hr; done.
Qed.

Lemma init_rule_total cs i n :
  init_done cs = false → ∃ l, init_rule cs i n l.
Proof.
  unfold init_done. intros Hd.
  destruct (ContainerState.Terminated (ContainerStatus.State cs)) as [|t] eqn:Ht.
  - destruct (ContainerState.Waiting (ContainerStatus.State cs)) as [|w] eqn:Hw.
    + eexists. apply init_progress; [done|]. intros w; by rewrite Hw.
    + destruct (decide (ContainerStateWaiting.Reason w = "")) as [Hr|Hr].
      { eexists. apply init_progress; [done|].
        intros w'. rewrite Hw. intros [= <-]. by left. }
      destruct (decide (ContainerStateWaiting.Reason w = "PodInitializing")) as [Hp|Hp].
      { eexists. apply init_progress; [done|].
        intros w'. rewrite Hw. intros [= <-]. by right. }
      eexists. by eapply init_waiting.
  - apply Z.eqb_neq in Hd.
    destruct (decide (ContainerStateTerminated.Reason t = "")) as [Hr|Hr];
      [|eexists; by eapply init_reason].
    destruct (decide (ContainerStateTerminated.Signal t = 0)) as [Hs|Hs];
      eexists; [by eapply init_exit | by eapply init_signal].
Qed.

Lemma init_rule_nonempty cs i n l : init_rule cs i n l → String.eqb l "" = false.
Proof. by destruct 1. Qed.

Lemma initContainerPhase_loop_first pre cs post i n status l :
  Forall (λ c, init_done c = true) pre →
  init_rule cs (i + len pre) n l →
  initContainerPhase_loop (pre ++ cs :: post) i n status = (l, true).
Proof.
  intros Hpre. revert i. induction Hpre as [|c pre Hc Hpre IH]; intros i Hl; simpl.
  - unfold len in Hl; simpl in Hl. rewrite Z.add_0_r in Hl.
    rewrite (checkContainerStatus_rule _ _ _ _ Hl).
    by rewrite (init_rule_nonempty _ _ _ _ Hl).
  - rewrite (checkContainerStatus_done _ _ _ Hc). simpl. apply IH.
    unfold len in *. simpl length in Hl.
    by replace (i + 1 + Z.of_nat (length pre)) with (i + Z.of_nat (S (length pre))) by lia.
Qed.

Lemma initContainerPhase_loop_done css i n status :
  Forall (λ c, init_done c = true) css →
  initContainerPhase_loop css i n status = (status, false).
Proof.
  intros Hcss. revert i. induction Hcss as [|c css Hc Hcss IH]; intros i; simpl; [done|].
  rewrite (checkContainerStatus_done _ _ _ Hc). simpl. apply IH.
Qed.

(** C3.  A pod whose deletion is requested and whose status reason is
    "NodeLost" has phase "Unknown", whatever its container statuses are:
    the result is returned before any container is looked at. *)
Theorem Phase_node_lost_unknown (po : Pod.t) :
  ObjectMeta.DeletionTimestamp (Pod.Meta po) ≠ nil_ptr →
  PodStatus.Reason (Pod.Status po) = "NodeLost" →
  Phase po = "Unknown".
Proof.
  intros Hdel Hreason. unfold Phase.
  rewrite Phase_unfold_node_lost. unfold node_lost. rewrite Hreason.
  by destruct (ObjectMeta.DeletionTimestamp (Pod.Meta po)).
Qed.

Lemma Phase_node_lost_unknown_witness :
  Phase (sample_pod (ref 1700000100) "NodeLost" [] [co_requests]) = "Unknown".
Proof.
  apply Phase_node_lost_unknown; [discriminate | reflexivity].
Defined.

(** C4.  A pod whose deletion is requested, whose reason is not "NodeLost"
    and whose init containers raise no override (each has terminated with
    exit code 0) has phase "Terminating", whatever label the scan of the
    regular containers computes. *)
Theorem Phase_deleted_terminating (po : Pod.t) :
  ObjectMeta.DeletionTimestamp (Pod.Meta po) ≠ nil_ptr →
  PodStatus.Reason (Pod.Status po) ≠ "NodeLost" →
  Forall (λ c, init_done c = true) (PodStatus.InitContainerStatuses (Pod.Status po)) →
  Phase po = Terminating.
Proof.
  intros Hdel Hreason Hinit. unfold Phase.
  rewrite Phase_unfold_node_lost. unfold node_lost.
  apply String.eqb_neq in Hreason. rewrite Hreason, andb_false_r.
  unfold initContainerPhase. rewrite initContainerPhase_loop_done by done.
  destruct (containerPhase _ _) as [status ok].
  by destruct (ObjectMeta.DeletionTimestamp (Pod.Meta po)).
Qed.

Lemma Phase_deleted_terminating_witness :
  Phase (sample_pod (ref 1700000100) "" [cs_init_ok] [co_requests]) = "Terminating".
Proof.
  apply Phase_deleted_terminating.
  - discriminate.
  - discriminate.
  - repeat constructor.
Defined.

(** C5.  The init containers are scanned in index order, and the first one
    that has not terminated with exit code 0 decides the phase by the
    per-container rule [init_rule]: a non-zero exit gives "Init:" and the
    reason, else "Init:Signal:" and the signal when it is not 0, else
    "Init:ExitCode:" and the exit code; waiting with a reason other than
    "PodInitializing" gives "Init:" and the reason; anything else gives
    "Init:index/total".  The rule yields a label for every such container,
    the containers after it are not consulted, and the label is the phase
    of the pod (unless the pod is being deleted on a lost node, which is
    decided before the scan). *)
Theorem init_first_undone_decides (po : Pod.t)
    (pre post : list ContainerStatus.t) (cs : ContainerStatus.t) :
  PodStatus.InitContainerStatuses (Pod.Status po) = (pre ++ cs :: post)%list →
  Forall (λ c, init_done c = true) pre →
  init_done cs = false →
  (∃ l, init_rule cs (len pre) (len (PodSpec.InitContainers (Pod.Spec po))) l)
  ∧ ∀ l, init_rule cs (len pre) (len (PodSpec.InitContainers (Pod.Spec po))) l →
      (∀ status,
          initContainerPhase (Pod.Status po)
            (len (PodSpec.InitContainers (Pod.Spec po))) status = (l, true))
      ∧ (node_lost po = false → Phase po = l).
Proof.
  intros Hcss Hpre Hcs. split; [by apply init_rule_total|].
  intros l Hl.
  assert (∀ status,
    initContainerPhase (Pod.Status po)
      (len (PodSpec.InitContainers (Pod.Spec po))) status = (l, true)) as Hscan.
  { intros status. unfold initContainerPhase. rewrite Hcss.
    by apply initContainerPhase_loop_first. }
  split; [done|].
  intros Hlost. unfold Phase. rewrite Phase_unfold_node_lost, Hlost.
  by rewrite Hscan.
Qed.

Lemma init_first_undone_decides_witness :
  Phase (sample_pod nil_ptr "" [cs_init_ok; cs_init_failed; cs_init_waiting] [co_requests])
  = "Init:ExitCode:1".
Proof.
  destruct (init_first_undone_decides
              (sample_pod nil_ptr "" [cs_init_ok; cs_init_failed; cs_init_waiting]
                          [co_requests])
              [cs_init_ok] [cs_init_waiting] cs_init_failed) as [_ Hrule].
  - reflexivity.
  - repeat constructor.
  - reflexivity.
  - apply (Hrule "Init:ExitCode:1"); [|reflexivity].
    apply (init_exit cs_init_failed _ _ (ContainerStateTerminated.mk 1 0 ""));
      [reflexivity | discriminate | reflexivity | reflexivity].
Defined.

Lemma containerPhase_body_labelling cs status running :
  containerPhase_body cs (status, running) =
  match labelling cs with
  | Some l => (l, running)
  | None => (status, saw_running cs || running)
  end.
Proof.
  unfold saw_running. unfold containerPhase_body, labelling.
  destruct (ContainerState.Waiting _) as [|w],
           (ContainerState.Terminated _) as [|t]; simpl;
    repeat match goal with |- context [if ?b then _ else _] => destruct b; simpl end;
    try done.
Qed.

Lemma containerPhase_loop_foldr css n acc :
  (n ≤ length css)%nat →
  containerPhase_loop css n acc = foldr containerPhase_body acc (take n css).
Proof.
  revert acc. induction n as [|i IH]; intros acc Hn; simpl; [done|].
  destruct (lookup_lt_is_Some_2 css i) as [cs Hcs]; [lia|].
  rewrite Hcs, IH by lia.
  rewrite (take_S_r _ _ _ Hcs), foldr_app. done.
Qed.

Lemma foldr_containerPhase_body css status :
  foldr containerPhase_body (status, false) css =
  (default status (first_label css), existsb saw_running css).
Proof.
  induction css as [|cs css IH]; simpl; [done|].
  rewrite IH, containerPhase_body_labelling. unfold saw_running.
  by destruct (labelling cs).
Qed.

Lemma first_label_lowest pre cs post l :
  Forall (λ c, labelling c = None) pre →
  labelling cs = Some l →
  first_label (pre ++ cs :: post) = Some l.
Proof.
  intros Hpre Hcs. induction Hpre as [|c pre Hc Hpre IH]; simpl.
  - by rewrite Hcs.
  - by rewrite Hc.
Qed.

(** C6.  [containerPhase] visits the statuses from the highest index down
    to index 0 (the fold applies the loop body to the last status first)
    and every labelling case overwrites the label, so the label returned is
    that of the lowest-indexed container matching a labelling case, or the
    label passed in when there is none; a ready running container that
    matches no labelling case leaves the label alone and sets the flag
    returned. *)
Theorem containerPhase_lowest_index_wins (st : PodStatus.t) (status : string) :
  containerPhase st status =
    foldr containerPhase_body (status, false) (PodStatus.ContainerStatuses st)
  ∧ containerPhase st status =
    (default status (first_label (PodStatus.ContainerStatuses st)),
     existsb saw_running (PodStatus.ContainerStatuses st)).
Proof.
  assert (containerPhase st status =
    foldr containerPhase_body (status, false) (PodStatus.ContainerStatuses st)) as Hfold.
  { unfold containerPhase. rewrite containerPhase_loop_foldr by lia.
    by rewrite firstn_all. }
  split; [done|]. rewrite Hfold. apply foldr_containerPhase_body.
Qed.

(** ** Properties of the readiness diagnosis *)

Lemma diagnose_completed cr ct : diagnose Completed cr ct = None.
Proof. reflexivity. Qed.

Lemma diagnose_other phase cr ct :
  phase ≠ Completed →
  diagnose phase cr ct =
  if negb (cr =? ct) || (ct =? 0) then Some (ready_check_failed cr ct) else None.
Proof.
  intros Hp. unfold diagnose. apply String.eqb_neq in Hp. by rewrite Hp.
Qed.

(** C7.  [diagnose] returns no diagnostic when the phase is "Completed",
    for every ready count and total; for any other phase and a total that
    is a container count (not negative), it returns no diagnostic exactly
    when the ready count equals the total and the total is positive, and
    otherwise returns exactly the message "container ready check failed:
    <ready> of <total>". *)
Theorem diagnose_verdict (phase : string) (cr ct : Z) :
  (phase = Completed → diagnose phase cr ct = None)
  ∧ (phase ≠ Completed → 0 ≤ ct →
     (diagnose phase cr ct = None ↔ cr = ct ∧ 0 < ct)
     ∧ (¬ (cr = ct ∧ 0 < ct) →
        diagnose phase cr ct =
        Some ("container ready check failed: " +:+ strconv.Itoa cr
              +:+ " of " +:+ strconv.Itoa ct))).
Proof.
  split; [intros ->; apply diagnose_completed|].
  intros Hp Hct. rewrite (diagnose_other _ _ _ Hp).
  destruct (Z.eqb_spec cr ct) as [Heq|Hne], (Z.eqb_spec ct 0) as [Hz|Hnz]; simpl;
    (split; [split; [try done; intros _; lia | try done; intros []; lia]
            | intros Hn; try done; exfalso; apply Hn; lia]).
Qed.

Lemma diagnose_verdict_witness :
  diagnose "Completed" 0 3 = None
  ∧ (diagnose "Running" 3 3 = None ↔ 3 = 3 ∧ 0 < 3)
  ∧ diagnose "Running" 2 3 = Some "container ready check failed: 2 of 3".
Proof.
  split; [exact (proj1 (diagnose_verdict "Completed" 0 3) eq_refl)|].
  split.
  - destruct (proj2 (diagnose_verdict "Running" 3 3)) as [Hiff _];
      [discriminate | lia | exact Hiff].
  - destruct (proj2 (diagnose_verdict "Running" 2 3)) as [_ Hmsg];
      [discriminate | lia | apply Hmsg; lia].
Defined.

(** ** Properties of the metrics *)

Lemma resourceLimits_loop_total cc cpu mem :
  ∃ c m, resourceLimits_loop cc (ref cpu) (ref mem) = Some (ref c, ref m).
Proof.
  revert cpu mem. induction cc as [|co cc IH]; intros cpu mem; simpl; [by eauto|].
  destruct (size _ =? 0)%nat; simpl; [by eauto|].
  rewrite Cpu_quantity_of, Memory_quantity_of. simpl. apply IH.
Qed.

Lemma podRequests_total spec :
  ∃ c m, podRequests spec = Some (ref c, ref m).
Proof.
  unfold podRequests, resourceRequests.
  rewrite !resourceRequests_loop_aggregate. simpl. eauto.
Qed.

Lemma podLimits_total spec :
  ∃ c m, podLimits spec = Some (ref c, ref m).
Proof.
  unfold podLimits, resourceLimits.
  destruct (resourceLimits_loop_total (PodSpec.Containers spec) zero zero)
    as (c & m & ->).
  destruct (resourceLimits_loop_total (PodSpec.InitContainers spec) zero zero)
    as (ic & im & ->).
  simpl. eauto.
Qed.

Lemma currentRes_loop_sum cos cpu mem :
  currentRes_loop cos cpu mem =
  Some (Add cpu (qsum (map usage_cpu cos)), Add mem (qsum (map usage_mem cos))).
Proof.
  revert cpu mem. induction cos as [|co cos IH]; intros cpu mem; simpl.
  - by rewrite !Add_zero_r.
  - rewrite Cpu_quantity_of, Memory_quantity_of. simpl.
    rewrite IH. unfold usage_cpu, usage_mem. by rewrite !Add_assoc.
Qed.

Lemma currentRes_sum mxv :
  currentRes (ref mxv) =
  Some (qsum (map usage_cpu (PodMetrics.Containers mxv)),
        qsum (map usage_mem (PodMetrics.Containers mxv))).
Proof.
  unfold currentRes. rewrite currentRes_loop_sum. by rewrite !Add_zero_l.
Qed.

Lemma gatherPodMX_snapshot `{Helpers} po mxv rc rm lc lm :
  podRequests (Pod.Spec po) = Some (ref rc, ref rm) →
  podLimits (Pod.Spec po) = Some (ref lc, ref lm) →
  ∃ r, gatherPodMX po (ref mxv) =
    Some (metric.mk
            (ToMc (MilliValue (qsum (map usage_cpu (PodMetrics.Containers mxv)))))
            (ToMi (client.ToMB (Value (qsum (map usage_mem (PodMetrics.Containers mxv))))))
            "" "",
          metric.mk
            (ToPercentageStr
               (MilliValue (qsum (map usage_cpu (PodMetrics.Containers mxv))))
               (MilliValue rc))
            (ToPercentageStr
               (client.ToMB (Value (qsum (map usage_mem (PodMetrics.Containers mxv)))))
               (client.ToMB (Value rm)))
            (ToPercentageStr
               (MilliValue (qsum (map usage_cpu (PodMetrics.Containers mxv))))
               (MilliValue lc))
            (ToPercentageStr
               (client.ToMB (Value (qsum (map usage_mem (PodMetrics.Containers mxv)))))
               (client.ToMB (Value lm))),
          r).
Proof.
  intros Hreq Hlim. unfold gatherPodMX.
  rewrite currentRes_sum. simpl. rewrite Hreq. simpl. rewrite Hlim. simpl.
  eauto.
Qed.

(** C8.  [gatherPodMX] returns for every pod and every snapshot, present or
    not: no dereference in it or in the aggregation faults.  Without a
    snapshot both current-usage fields and all four percentages are the
    "not available" sentinel.  With a snapshot, each percentage whose
    denominator (the aggregated request or limit quantity) is zero is the
    sentinel for that field. *)
Theorem gatherPodMX_total `{Helpers} (po : Pod.t) (mx : ptr PodMetrics.t) :
  ∃ c p r rc rm lc lm,
    gatherPodMX po mx = Some (c, p, r)
    ∧ podRequests (Pod.Spec po) = Some (ref rc, ref rm)
    ∧ podLimits (Pod.Spec po) = Some (ref lc, ref lm)
    ∧ (mx = nil_ptr →
       metric.cpu c = NAValue ∧ metric.mem c = NAValue
       ∧ metric.cpu p = NAValue ∧ metric.mem p = NAValue
       ∧ metric.cpuLim p = NAValue ∧ metric.memLim p = NAValue)
    ∧ (mx ≠ nil_ptr →
       (rc = zero → metric.cpu p = NAValue)
       ∧ (rm = zero → metric.mem p = NAValue)
       ∧ (lc = zero → metric.cpuLim p = NAValue)
       ∧ (lm = zero → metric.memLim p = NAValue)).
Proof.
  destruct (podRequests_total (Pod.Spec po)) as (rc & rm & Hreq).
  destruct (podLimits_total (Pod.Spec po)) as (lc & lm & Hlim).
  destruct mx as [|mxv].
  - exists noMetric, noMetric, nil_ptr, rc, rm, lc, lm.
    repeat split; done.
  - destruct (gatherPodMX_snapshot po mxv rc rm lc lm Hreq Hlim) as [r Hr].
    eexists _, _, r, rc, rm, lc, lm.
    split; [exact Hr|]. split; [done|]. split; [done|]. split; [done|].
    intros _. repeat split; intros ->; reflexivity.
Qed.

Lemma gatherPodMX_total_witness :
  (∃ c p r,
     @gatherPodMX sample_helpers (sample_pod nil_ptr "" [] [co_requests]) nil_ptr
       = Some (c, p, r)
     ∧ metric.cpu c = "n/a" ∧ metric.cpu p = "n/a")
  ∧ (∃ c p r,
       @gatherPodMX sample_helpers (sample_pod nil_ptr "" [] [co_bare]) (ref sample_usage)
         = Some (c, p, r)
       ∧ metric.cpu p = "n/a").
Proof.
  split.
  - destruct (@gatherPodMX_total sample_helpers
                (sample_pod nil_ptr "" [] [co_requests]) nil_ptr)
      as (c & p & r & rc & rm & lc & lm & Hg & _ & _ & Hnil & _).
    exists c, p, r. split; [exact Hg|].
    destruct (Hnil eq_refl) as (Hc & _ & Hp & _). by split.
  - destruct (@gatherPodMX_total sample_helpers
                (sample_pod nil_ptr "" [] [co_bare]) (ref sample_usage))
      as (c & p & r & rc & rm & lc & lm & Hg & Hreq & _ & _ & Hzero).
    exists c, p, r. split; [exact Hg|].
    apply Hzero; [discriminate|].
    vm_compute in Hreq. by injection Hreq as <- <-.
Defined.

(** C9.  For every snapshot that is present, the current cpu is the sum of
    the cpu of every entry and the current mem the sum of the mem of every
    entry; the names of the entries are not looked at, and the current-usage
    fields that [gatherPodMX] shows are those sums for whatever pod the
    snapshot is shown with. *)
Theorem currentRes_sums_every_entry `{Helpers} (po : Pod.t) (mxv : PodMetrics.t) :
  currentRes (ref mxv) =
    Some (qsum (map usage_cpu (PodMetrics.Containers mxv)),
          qsum (map usage_mem (PodMetrics.Containers mxv)))
  ∧ ∃ p r, gatherPodMX po (ref mxv) =
      Some (metric.mk
              (ToMc (MilliValue (qsum (map usage_cpu (PodMetrics.Containers mxv)))))
              (ToMi (client.ToMB (Value (qsum (map usage_mem (PodMetrics.Containers mxv))))))
              "" "",
            p, r).
Proof.
  split; [apply currentRes_sum|].
  destruct (podRequests_total (Pod.Spec po)) as (rc & rm & Hreq).
  destruct (podLimits_total (Pod.Spec po)) as (lc & lm & Hlim).
  destruct (gatherPodMX_snapshot po mxv rc rm lc lm Hreq Hlim) as [r Hr].
  eauto.
Qed.

(** ** Properties of the rendered row *)

(** C10.  Without a metrics snapshot [gatherPodMX] returns at once with the
    nil resources map, whatever the pod declares: the aggregated requests
    and limits do not enter the result.  In the rendered row the CPU(R:L)
    and MEM(R:L) columns are then the "not available" sentinel as well. *)
Theorem Render_without_metrics `{Helpers} (po : Pod.t) :
  gatherPodMX po nil_ptr = Some (noMetric, noMetric, nil_ptr)
  ∧ ∃ row, Render po nil_ptr = Some row
      ∧ column "CPU(R:L)" row = Some NAValue
      ∧ column "MEM(R:L)" row = Some NAValue.
Proof.
  split; [reflexivity|].
  unfold Render. destruct (Statuses _) as [[cr ct] rc]. simpl.
  eexists. split; [reflexivity|]. split; reflexivity.
Qed.

(** ** Further properties of the aggregation *)

Lemma aggregate_is_by cc cpu mem :
  aggregate cc cpu mem = aggregate_by contribution cc cpu mem.
Proof.
  revert cpu mem. induction cc as [|co cc IH]; intros cpu mem; simpl; [done|].
  destruct (contribution co) as [[c m]|]; [apply IH | done].
Qed.

Lemma aggregate_by_mapM f cc cpu mem :
  aggregate_by f cc cpu mem =
  match mapM f cc with
  | Some ps => (Add cpu (qsum ps.*1), Add mem (qsum ps.*2))
  | None => (zero, zero)
  end.
Proof.
  revert cpu mem. induction cc as [|co cc IH]; intros cpu mem; cbn.
  - by rewrite !Add_zero_r.
  - destruct (f co) as [[c m]|]; cbn; [|done].
    rewrite IH. destruct (mapM f cc) as [ps|]; cbn; [|done].
    by rewrite !Add_assoc.
Qed.

Lemma aggregate_by_scope_total f cc :
  aggregate_by f cc zero zero = scope_total f cc.
Proof.
  rewrite aggregate_by_mapM. unfold scope_total.
  destruct (mapM f cc); [by rewrite !Add_zero_l | done].
Qed.

Lemma aggregate_by_perm f cc cc' cpu mem :
  cc ≡ₚ cc' → aggregate_by f cc cpu mem = aggregate_by f cc' cpu mem.
Proof.
  intros Hperm. revert cpu mem.
  induction Hperm as [|co cc cc' _ IH|co co' cc|cc cc' cc'' _ IH1 _ IH2];
    intros cpu mem; simpl.
  - done.
  - destruct (f co) as [[c m]|]; [apply IH | done].
  - destruct (f co) as [[c m]|], (f co') as [[c' m']|]; try done.
    by rewrite !Add_assoc, (Add_comm c' c), (Add_comm m' m).
  - by rewrite IH1.
Qed.

Lemma containerLimits_contribution co :
  containerLimits co =
  match limit_contribution co with
  | Some (c, m) => (ref c, ref m)
  | None => (nil_ptr, nil_ptr)
  end.
Proof.
  unfold containerLimits, limit_contribution.
  destruct (size _ =? 0)%nat eqn:Hlim.
  - apply size_eqb_0 in Hlim. by rewrite decide_False by (intros ?; done).
  - apply size_eqb_0_false in Hlim. rewrite decide_True by done.
    by rewrite Cpu_quantity_of, Memory_quantity_of.
Qed.

Lemma resourceLimits_loop_by cc cpu mem :
  resourceLimits_loop cc (ref cpu) (ref mem) =
  Some (ref (aggregate_by limit_contribution cc cpu mem).1,
        ref (aggregate_by limit_contribution cc cpu mem).2).
Proof.
  revert cpu mem. induction cc as [|co cc IH]; intros cpu mem; [done|].
  simpl. unfold limit_contribution at 1 3.
  destruct (size _ =? 0)%nat eqn:Hlim.
  - apply size_eqb_0 in Hlim. by rewrite decide_False by (intros ?; done).
  - apply size_eqb_0_false in Hlim. rewrite decide_True by done.
    rewrite Cpu_quantity_of, Memory_quantity_of. simpl. apply IH.
Qed.

Lemma resourceRequests_scope_total cc :
  resourceRequests cc =
  Some (ref (scope_total contribution cc).1, ref (scope_total contribution cc).2).
Proof.
  unfold resourceRequests. rewrite resourceRequests_loop_aggregate.
  by rewrite aggregate_is_by, aggregate_by_scope_total.
Qed.

Lemma resourceLimits_scope_total cc :
  resourceLimits cc =
  Some (ref (scope_total limit_contribution cc).1,
        ref (scope_total limit_contribution cc).2).
Proof.
  unfold resourceLimits. rewrite resourceLimits_loop_by.
  by rewrite aggregate_by_scope_total.
Qed.

(** X1.  The limit totals of a scope follow the limit rule and never fall
    back to requests: a container contributes its limit pair if its limit
    list is not empty (an entry it lacks counts as zero); the totals are the
    sums of all pairs when every container has one, and zero for both cpu
    and mem as soon as one container has an empty limit list.
    [containerLimits] extracts the same pair. *)
Theorem resourceLimits_follows_rule (cc : list Container.t) :
  (∀ co, containerLimits co =
         match limit_contribution co with
         | Some (c, m) => (ref c, ref m)
         | None => (nil_ptr, nil_ptr)
         end)
  ∧ resourceLimits cc =
    match mapM limit_contribution cc with
    | Some ps => Some (ref (qsum ps.*1), ref (qsum ps.*2))
    | None => Some (ref zero, ref zero)
    end.
Proof.
  split; [apply containerLimits_contribution|].
  rewrite resourceLimits_scope_total. unfold scope_total.
  by destruct (mapM limit_contribution cc).
Qed.

Lemma loops_agree_without_requests cc cpu mem :
  Forall (λ co, ResourceRequirements.Requests (Container.Resources co) = ∅) cc →
  resourceRequests_loop cc cpu mem = resourceLimits_loop cc cpu mem.
Proof.
  intros Hcc. revert cpu mem.
  induction Hcc as [|co cc Hco _ IH]; intros cpu mem; [done|].
  simpl. unfold containerResources. rewrite Hco.
  change (size (∅ : gmap string Quantity) =? 0)%nat with true. simpl.
  destruct (size _ =? 0)%nat; simpl; [done|].
  rewrite Cpu_quantity_of, Memory_quantity_of. simpl.
  destruct (add_if_set cpu _) as [cpu'|]; simpl; [|done].
  destruct (add_if_set mem _) as [mem'|]; simpl; [apply IH | done].
Qed.

(** X2.  Requests default to limits: in a scope where no container
    declares a request, the request totals equal the limit totals. *)
Theorem requests_default_to_limits (cc : list Container.t) :
  Forall (λ co, ResourceRequirements.Requests (Container.Resources co) = ∅) cc →
  resourceRequests cc = resourceLimits cc.
Proof. intros Hcc. by apply loops_agree_without_requests. Qed.

Lemma requests_default_to_limits_witness :
  resourceRequests [co_limits_only; co_limits_only]
  = resourceLimits [co_limits_only; co_limits_only].
Proof.
  apply requests_default_to_limits. repeat constructor.
Defined.

(** X3.  The totals of a scope do not depend on the order of its
    containers: although the loops stop at the first undefined container,
    reordering the containers changes neither the request totals nor the
    limit totals. *)
Theorem scope_totals_order_independent (cc cc' : list Container.t) :
  cc ≡ₚ cc' →
  resourceRequests cc = resourceRequests cc'
  ∧ resourceLimits cc = resourceLimits cc'.
Proof.
  intros Hperm. unfold resourceRequests, resourceLimits.
  rewrite !resourceRequests_loop_aggregate, !resourceLimits_loop_by.
  rewrite !aggregate_is_by.
  by rewrite !(aggregate_by_perm _ cc cc' _ _ Hperm).
Qed.

Lemma scope_totals_order_independent_witness :
  resourceRequests [co_requests; co_bare; co_limits_only]
  = resourceRequests [co_bare; co_requests; co_limits_only]
  ∧ resourceLimits [co_requests; co_bare; co_limits_only]
    = resourceLimits [co_bare; co_requests; co_limits_only].
Proof.
  apply scope_totals_order_independent. apply perm_swap.
Defined.

Lemma podRequests_scopes spec :
  podRequests spec =
  Some (ref (Add (scope_total contribution (PodSpec.Containers spec)).1
                 (scope_total contribution (PodSpec.InitContainers spec)).1),
        ref (Add (scope_total contribution (PodSpec.Containers spec)).2
                 (scope_total contribution (PodSpec.InitContainers spec)).2)).
Proof. unfold podRequests. by rewrite !resourceRequests_scope_total. Qed.

Lemma podLimits_scopes spec :
  podLimits spec =
  Some (ref (Add (scope_total limit_contribution (PodSpec.Containers spec)).1
                 (scope_total limit_contribution (PodSpec.InitContainers spec)).1),
        ref (Add (scope_total limit_contribution (PodSpec.Containers spec)).2
                 (scope_total limit_contribution (PodSpec.InitContainers spec)).2)).
Proof. unfold podLimits. by rewrite !resourceLimits_scope_total. Qed.

(** X4.  The pod totals are the totals of the regular scope plus the totals
    of the init scope, for requests and for limits, each scope reset on its
    own. *)
Theorem pod_totals_add_scopes (spec : PodSpec.t) :
  podRequests spec =
    Some (ref (Add (scope_total contribution (PodSpec.Containers spec)).1
                   (scope_total contribution (PodSpec.InitContainers spec)).1),
          ref (Add (scope_total contribution (PodSpec.Containers spec)).2
                   (scope_total contribution (PodSpec.InitContainers spec)).2))
  ∧ podLimits spec =
    Some (ref (Add (scope_total limit_contribution (PodSpec.Containers spec)).1
                   (scope_total limit_contribution (PodSpec.InitContainers spec)).1),
          ref (Add (scope_total limit_contribution (PodSpec.Containers spec)).2
                   (scope_total limit_contribution (PodSpec.InitContainers spec)).2)).
Proof. split; [apply podRequests_scopes | apply podLimits_scopes]. Qed.

Lemma scope_total_undeclared cc co :
  co ∈ cc → undeclared co → scope_total contribution cc = (zero, zero).
Proof.
  intros Hin Hco. rewrite <- aggregate_by_scope_total, <- aggregate_is_by.
  by eapply aggregate_undeclared.
Qed.

(** X5.  A reset in one scope does not reset the pod: when a regular
    container declares neither a request nor a limit, the pod's request
    totals are the totals of the init containers alone. *)
Theorem podRequests_undeclared_regular (spec : PodSpec.t) (co : Container.t) :
  co ∈ PodSpec.Containers spec → undeclared co →
  podRequests spec = resourceRequests (PodSpec.InitContainers spec).
Proof.
  intros Hin Hco. rewrite podRequests_scopes, resourceRequests_scope_total.
  rewrite (scope_total_undeclared _ _ Hin Hco). simpl. by rewrite !Add_zero_l.
Qed.

Lemma podRequests_undeclared_regular_witness :
  podRequests (PodSpec.mk [co_requests] [co_both; co_bare] "node-1")
  = Some (ref cpu_250m, ref mem_64Mi).
Proof.
  rewrite (podRequests_undeclared_regular _ co_bare).
  - vm_compute. reflexivity.
  - apply list_elem_of_further, list_elem_of_here.
  - split; reflexivity.
Defined.

(** X6.  The two pointers [containerResources] returns are nil together,
    and they are nil exactly when the container declares neither a request
    nor a limit: the test [c == nil || m == nil] of [resourceRequests]
    cannot fire on a container that has only one of cpu and mem. *)
Theorem containerResources_nil_together (co : Container.t) :
  is_nil (containerResources co).1 = is_nil (containerResources co).2
  ∧ (is_nil (containerResources co).1 = true ↔ undeclared co).
Proof.
  rewrite containerResources_contribution, <- contribution_undeclared.
  destruct (contribution co) as [[c m]|]; simpl; split; try done.
Qed.

(** ** Further properties of the metrics *)

Lemma qsum_app qs qs' : qsum (qs ++ qs') = Add (qsum qs) (qsum qs').
Proof.
  induction qs as [|q qs IH]; simpl.
  - by rewrite Add_zero_l.
  - unfold qsum in *. simpl. by rewrite IH, Add_assoc.
Qed.

(** X7.  The current usage is additive over the entries of the snapshot:
    the usage of two lists of entries put together is the sum of their
    usages, so every entry counts, also entries that repeat a name. *)
Theorem currentRes_app (cms cms' : list ContainerMetrics.t) :
  currentRes (ref (PodMetrics.mk (cms ++ cms'))) =
  '(c, m) ← currentRes (ref (PodMetrics.mk cms));
  '(c', m') ← currentRes (ref (PodMetrics.mk cms'));
  Some (Add c c', Add m m').
Proof.
  rewrite !currentRes_sum. simpl. by rewrite !map_app, !qsum_app.
Qed.

Lemma gatherPodMX_resources `{Helpers} po mxv rc rm lc lm :
  podRequests (Pod.Spec po) = Some (rc, rm) →
  podLimits (Pod.Spec po) = Some (lc, lm) →
  ∃ c p, gatherPodMX po (ref mxv) =
    Some (c, p,
          ref (<[limitMEM := lm]> (<[limitCPU := lc]>
                 (<[requestMEM := rm]> (<[requestCPU := rc]> ∅))))).
Proof.
  intros Hreq Hlim.
  destruct (podRequests_total (Pod.Spec po)) as (rcv & rmv & Hreq').
  destruct (podLimits_total (Pod.Spec po)) as (lcv & lmv & Hlim').
  rewrite Hreq' in Hreq. rewrite Hlim' in Hlim.
  injection Hreq as <- <-. injection Hlim as <- <-.
  unfold gatherPodMX. rewrite currentRes_sum. simpl.
  rewrite Hreq'. simpl. rewrite Hlim'. simpl. eauto.
Qed.

(** X8.  With a snapshot, the resources map that [gatherPodMX] returns
    holds the pod's request totals under "rcpu" and "rmem" and its limit
    totals under "lcpu" and "lmem", and no other key. *)
Theorem gatherPodMX_resources_map `{Helpers} (po : Pod.t) (mxv : PodMetrics.t) :
  ∃ c p m rc rm lc lm,
    gatherPodMX po (ref mxv) = Some (c, p, ref m)
    ∧ podRequests (Pod.Spec po) = Some (rc, rm)
    ∧ podLimits (Pod.Spec po) = Some (lc, lm)
    ∧ m !! requestCPU = Some rc ∧ m !! requestMEM = Some rm
    ∧ m !! limitCPU = Some lc ∧ m !! limitMEM = Some lm
    ∧ ∀ k, k ∉ resource_keys → m !! k = None.
Proof.
  destruct (podRequests_total (Pod.Spec po)) as (rc & rm & Hreq).
  destruct (podLimits_total (Pod.Spec po)) as (lc & lm & Hlim).
  destruct (gatherPodMX_resources po mxv _ _ _ _ Hreq Hlim) as (c & p & Hg).
  eexists c, p, _, _, _, _, _. split; [exact Hg|].
  split; [exact Hreq|]. split; [exact Hlim|].
  repeat (split; [reflexivity|]).
  intros k Hk. unfold resource_keys in Hk.
  rewrite !lookup_insert_ne; [apply lookup_empty| | | |];
    intros <-; apply Hk; set_solver.
Qed.

(** ** Properties of the container counts *)

Lemma wrap64_in_int z : in_int z → wrap64 z = z.
Proof.
  unfold in_int, wrap64. intros Hz. rewrite Z.mod_small; lia.
Qed.

Lemma wrap64_range z : in_int (wrap64 z).
Proof.
  unfold in_int, wrap64.
  pose proof (Z.mod_pos_bound (z + 2 ^ 63) (2 ^ 64)). lia.
Qed.

Lemma wrap64_add_l a b : wrap64 (wrap64 a + b) = wrap64 (a + b).
Proof.
  unfold wrap64. f_equal.
  replace ((a + 2 ^ 63) mod 2 ^ 64 - 2 ^ 63 + b + 2 ^ 63)
    with ((a + 2 ^ 63) mod 2 ^ 64 + b) by lia.
  rewrite Zplus_mod_idemp_l. f_equal. lia.
Qed.

Lemma wrap64_add_r a b : wrap64 (a + wrap64 b) = wrap64 (a + b).
Proof. by rewrite Z.add_comm, wrap64_add_l, Z.add_comm. Qed.

Lemma wrap64_idemp z : wrap64 (wrap64 z) = wrap64 z.
Proof. apply wrap64_in_int, wrap64_range. Qed.

Lemma count_if_cons f c ss :
  count_if f (c :: ss) = (if f c then 1 else 0) + count_if f ss.
Proof.
  unfold count_if. simpl. destruct (f c); simpl length; lia.
Qed.

(** The loop of [Statuses] from given counts on. *)
Lemma Statuses_from cr ct rc ss :
  foldl (fun '(cr, ct, rc) c =>
           let ct := if negb (is_nil (ContainerState.Terminated (ContainerStatus.State c)))
                     then int_add ct 1 else ct in
           let cr := if ContainerStatus.Ready c then int_add cr 1 else cr in
           let rc := int_add rc (ContainerStatus.RestartCount c) in
           (cr, ct, rc))
        (wrap64 cr, wrap64 ct, wrap64 rc) ss
  = (wrap64 (cr + count_if ContainerStatus.Ready ss),
     wrap64 (ct + count_if is_terminated ss),
     wrap64 (rc + restart_sum ss)).
Proof.
  revert cr ct rc. induction ss as [|c ss IH]; intros cr ct rc.
  - unfold count_if; simpl. by rewrite !Z.add_0_r.
  - simpl foldl. unfold int_add. rewrite wrap64_add_l.
    rewrite !count_if_cons. unfold is_terminated at 1. simpl restart_sum.
    destruct (ContainerStatus.Ready c),
             (is_nil (ContainerState.Terminated (ContainerStatus.State c)));
      cbn [negb]; rewrite ?wrap64_add_l, IH;
      by rewrite ?Z.add_0_l, ?Z.add_assoc.
Qed.

Lemma Statuses_counts ss :
  Statuses ss =
  (wrap64 (count_if ContainerStatus.Ready ss),
   wrap64 (count_if is_terminated ss),
   wrap64 (restart_sum ss)).
Proof.
  unfold Statuses. change (0, 0, 0) with (wrap64 0, wrap64 0, wrap64 0).
  by rewrite Statuses_from.
Qed.

Lemma count_if_bounds f ss : 0 ≤ count_if f ss ≤ len ss.
Proof.
  unfold count_if, len. pose proof (List.filter_length_le f ss). lia.
Qed.

Lemma count_if_app f ss ss' : count_if f (ss ++ ss') = count_if f ss + count_if f ss'.
Proof.
  unfold count_if. rewrite List.filter_app, length_app. lia.
Qed.

Lemma restart_sum_app ss ss' : restart_sum (ss ++ ss') = restart_sum ss + restart_sum ss'.
Proof.
  induction ss as [|c ss IH]; simpl; [done|]. rewrite IH. lia.
Qed.

Lemma restart_sum_bounds ss :
  Forall (λ c, in_int32 (ContainerStatus.RestartCount c)) ss →
  - 2 ^ 31 * len ss ≤ restart_sum ss ≤ 2 ^ 31 * len ss.
Proof.
  unfold len. induction 1 as [|c ss Hc _ IH]; simpl restart_sum; [simpl; lia|].
  unfold in_int32 in Hc. rewrite length_cons, Nat2Z.inj_succ. lia.
Qed.


(** X9.  For a list of statuses whose length fits Go's [int], [Statuses]
    returns the number of ready containers and the number of terminated
    ones, both between 0 and the number of statuses. *)
Theorem Statuses_ready_terminated (ss : list ContainerStatus.t) :
  len ss < 2 ^ 63 →
  (Statuses ss).1.1 = count_if ContainerStatus.Ready ss
  ∧ (Statuses ss).1.2 = count_if is_terminated ss
  ∧ 0 ≤ (Statuses ss).1.1 ≤ len ss
  ∧ 0 ≤ (Statuses ss).1.2 ≤ len ss.
Proof.
  intros Hlen. rewrite Statuses_counts. simpl.
  pose proof (count_if_bounds ContainerStatus.Ready ss).
  pose proof (count_if_bounds is_terminated ss).
  rewrite !wrap64_in_int by (unfold in_int; lia). lia.
Qed.

Lemma Statuses_ready_terminated_witness :
  (Statuses [cs_ready; cs_init_failed; cs_completed]).1.1 = 1
  ∧ (Statuses [cs_ready; cs_init_failed; cs_completed]).1.2 = 2.
Proof.
  destruct (Statuses_ready_terminated [cs_ready; cs_init_failed; cs_completed])
    as (Hcr & Hct & _); [reflexivity|].
  split; [exact Hcr | exact Hct].
Defined.

(** X10.  When every restart count is an [int32] and there are fewer than
    2^31 statuses, the restart total that [Statuses] returns is the exact
    sum of the restart counts: the additions do not wrap. *)
Theorem Statuses_restarts (ss : list ContainerStatus.t) :
  Forall (λ c, in_int32 (ContainerStatus.RestartCount c)) ss →
  len ss < 2 ^ 31 →
  (Statuses ss).2 = restart_sum ss.
Proof.
  intros Hss Hlen. rewrite Statuses_counts. simpl.
  pose proof (restart_sum_bounds ss Hss) as Hb.
  assert (0 ≤ len ss) by (unfold len; lia).
  apply wrap64_in_int. unfold in_int. nia.
Qed.

Lemma Statuses_restarts_witness :
  (Statuses [cs_init_failed; cs_crashing; cs_ready]).2 = 9.
Proof.
  rewrite Statuses_restarts.
  - reflexivity.
  - repeat constructor; unfold in_int32; simpl; lia.
  - reflexivity.
Defined.

(** X11.  [Statuses] composes over concatenation: the counts of two lists
    put together are the counts of each added up with Go's [int]
    addition. *)
Theorem Statuses_app (ss ss' : list ContainerStatus.t) :
  Statuses (ss ++ ss') =
  (int_add (Statuses ss).1.1 (Statuses ss').1.1,
   int_add (Statuses ss).1.2 (Statuses ss').1.2,
   int_add (Statuses ss).2 (Statuses ss').2).
Proof.
  rewrite !Statuses_counts. simpl. unfold int_add.
  rewrite !wrap64_add_l, !wrap64_add_r.
  by rewrite !count_if_app, restart_sum_app.
Qed.

(** ** Further properties of the phase classifier *)

Lemma prefix_Init s : String.prefix "Init:" ("Init:" +:+ s) = true.
Proof. simpl. by destruct s. Qed.

Lemma checkContainerStatus_cases cs i n :
  (init_done cs = true ∧ checkContainerStatus cs i n = "")
  ∨ (init_done cs = false
     ∧ String.prefix "Init:" (checkContainerStatus cs i n) = true).
Proof.
  unfold init_done, checkContainerStatus.
  destruct (ContainerState.Terminated _) as [|t].
  - right. split; [done|].
    destruct (ContainerState.Waiting _) as [|w]; [apply prefix_Init|].
    destruct (_ && _); apply prefix_Init.
  - destruct (ContainerStateTerminated.ExitCode t =? 0); [by left|].
    right. split; [done|].
    destruct (nonempty _); [apply prefix_Init|].
    destruct (negb _); apply (prefix_Init (_ +:+ _)).
Qed.

Lemma prefix_Init_nonempty s : String.prefix "Init:" s = true → String.eqb s "" = false.
Proof. by destruct s. Qed.

Lemma initContainerPhase_loop_override css i n status l :
  initContainerPhase_loop css i n status = (l, true) →
  String.prefix "Init:" l = true.
Proof.
  revert i. induction css as [|cs css IH]; intros i; simpl; [done|].
  destruct (checkContainerStatus_cases cs i n) as [[_ Hs]|[_ Hs]].
  - rewrite Hs. simpl. apply IH.
  - rewrite (prefix_Init_nonempty _ Hs). by intros [= <-].
Qed.

Lemma initContainerPhase_loop_passes css i n status l :
  initContainerPhase_loop css i n status = (l, false) → l = status.
Proof.
  revert i. induction css as [|cs css IH]; intros i; simpl; [congruence|].
  destruct (String.eqb _ ""); [apply IH | done].
Qed.

Lemma initContainerPhase_loop_undone css i n status :
  Exists (λ c, init_done c = false) css →
  (initContainerPhase_loop css i n status).2 = true.
Proof.
  intros Hcss. revert i. induction css as [|cs css IH]; intros i.
  - by apply Exists_nil in Hcss.
  - simpl. destruct (checkContainerStatus_cases cs i n) as [[Hd Hs]|[_ Hs]].
    + rewrite Hs. simpl. apply IH.
      apply Exists_cons in Hcss as [Hcs|Hcss]; [congruence | done].
    + by rewrite (prefix_Init_nonempty _ Hs).
Qed.

(** X12.  The empty string that [checkContainerStatus] returns stands for
    exactly the init containers that terminated with exit code 0; every
    other init container gets a label that starts with "Init:", so a label
    is never mistaken for the empty string. *)
Theorem checkContainerStatus_empty_iff_done (cs : ContainerStatus.t) (i n : Z) :
  (checkContainerStatus cs i n = "" ↔ init_done cs = true)
  ∧ (checkContainerStatus cs i n ≠ "" ↔
     String.prefix "Init:" (checkContainerStatus cs i n) = true).
Proof.
  destruct (checkContainerStatus_cases cs i n) as [[Hd Hs]|[Hd Hs]].
  - rewrite Hs. split; [done|]. split; [done | discriminate].
  - pose proof (prefix_Init_nonempty _ Hs) as Hne. apply String.eqb_neq in Hne.
    split; [|done]. rewrite Hd. split; [done | discriminate].
Qed.

(** X13.  [initContainerPhase] reports an override exactly when some init
    container has not terminated with exit code 0: without one it hands
    the incoming label back with [false]; with one it returns [true] and a
    label that starts with "Init:". *)
Theorem initContainerPhase_override_iff (st : PodStatus.t) (n : Z) (status : string) :
  (Forall (λ c, init_done c = true) (PodStatus.InitContainerStatuses st) →
   initContainerPhase st n status = (status, false))
  ∧ (Exists (λ c, init_done c = false) (PodStatus.InitContainerStatuses st) →
     (initContainerPhase st n status).2 = true
     ∧ String.prefix "Init:" (initContainerPhase st n status).1 = true).
Proof.
  unfold initContainerPhase. split.
  - apply initContainerPhase_loop_done.
  - intros Hcss.
    pose proof (initContainerPhase_loop_undone _ 0 n status Hcss) as Hok.
    split; [done|].
    destruct (initContainerPhase_loop _ 0 n status) as [l ok] eqn:Hl.
    simpl in *. subst ok. by eapply initContainerPhase_loop_override.
Qed.

Lemma initContainerPhase_override_iff_witness :
  initContainerPhase
    (Pod.Status (pod_with nil_ptr "" [cs_init_ok] [cs_ready])) 1 "Running"
  = ("Running", false)
  ∧ (initContainerPhase
       (Pod.Status (pod_with nil_ptr "" [cs_init_ok; cs_init_waiting] [cs_ready]))
       2 "Running").2 = true.
Proof.
  split.
  - apply initContainerPhase_override_iff. repeat constructor.
  - apply initContainerPhase_override_iff.
    apply Exists_cons_tl, Exists_cons_hd. reflexivity.
Defined.

Lemma containerPhase_result st status :
  containerPhase st status =
  (default status (first_label (PodStatus.ContainerStatuses st)),
   existsb saw_running (PodStatus.ContainerStatuses st)).
Proof.
  unfold containerPhase. rewrite containerPhase_loop_foldr by lia.
  rewrite firstn_all. apply foldr_containerPhase_body.
Qed.

Lemma Phase_cases po :
  Phase po =
  if node_lost po then "Unknown"
  else
    let '(l, ok) :=
      initContainerPhase (Pod.Status po)
        (len (PodSpec.InitContainers (Pod.Spec po))) (base_label po) in
    if ok then l
    else
      let l := default (base_label po)
                 (first_label (PodStatus.ContainerStatuses (Pod.Status po))) in
      let l := if existsb saw_running (PodStatus.ContainerStatuses (Pod.Status po))
                  && String.eqb l Completed then Running else l in
      if is_nil (ObjectMeta.DeletionTimestamp (Pod.Meta po)) then l else Terminating.
Proof.
  unfold Phase. rewrite Phase_unfold_node_lost.
  destruct (node_lost po); [done|]. fold (base_label po).
  destruct (initContainerPhase _ _ _) as [l ok] eqn:Hinit. destruct ok; [done|].
  apply initContainerPhase_loop_passes in Hinit. subst l.
  rewrite containerPhase_result.
  by destruct (is_nil _).
Qed.

(** X14.  A pod that has a ready, running container matching no labelling
    case is never shown as "Completed", whatever else its status holds. *)
Theorem Phase_running_not_completed (po : Pod.t) :
  existsb saw_running (PodStatus.ContainerStatuses (Pod.Status po)) = true →
  Phase po ≠ Completed.
Proof.
  intros Hrun. rewrite Phase_cases. destruct (node_lost po); [discriminate|].
  destruct (initContainerPhase _ _ _) as [l ok] eqn:Hinit.
  destruct ok.
  - apply initContainerPhase_loop_override in Hinit.
    intros ->. discriminate.
  - rewrite Hrun. simpl. destruct (is_nil _); [|discriminate].
    destruct (String.eqb_spec
      (default (base_label po)
         (first_label (PodStatus.ContainerStatuses (Pod.Status po)))) Completed);
      [discriminate | done].
Qed.

Lemma Phase_running_not_completed_witness :
  String.eqb (Phase (pod_with nil_ptr "" [] [cs_completed; cs_ready])) "Completed"
  = false.
Proof.
  apply String.eqb_neq, Phase_running_not_completed. reflexivity.
Defined.

(** X15.  For a pod that is not being deleted and whose init containers
    all terminated with exit code 0, the phase is the label of the
    lowest-indexed labelling container, or the status reason (the pod
    phase when there is none) if no container labels; "Completed" is shown
    as "Running" when a ready running container was seen. *)
Theorem Phase_live_pod (po : Pod.t) :
  ObjectMeta.DeletionTimestamp (Pod.Meta po) = nil_ptr →
  Forall (λ c, init_done c = true) (PodStatus.InitContainerStatuses (Pod.Status po)) →
  Phase po =
  let l := default (base_label po)
             (first_label (PodStatus.ContainerStatuses (Pod.Status po))) in
  if existsb saw_running (PodStatus.ContainerStatuses (Pod.Status po))
     && String.eqb l Completed
  then Running else l.
Proof.
  intros Hdel Hinit. rewrite Phase_cases. unfold node_lost. rewrite Hdel. simpl.
  unfold initContainerPhase. by rewrite initContainerPhase_loop_done.
Qed.

Lemma Phase_live_pod_witness :
  Phase (pod_with nil_ptr "" [cs_init_ok] [cs_completed; cs_ready]) = "Running"
  ∧ Phase (pod_with nil_ptr "Evicted" [] []) = "Evicted"
  ∧ Phase (pod_with nil_ptr "" [] [cs_ready; cs_crashing]) = "CrashLoopBackOff".
Proof.
  split; [|split].
  - rewrite Phase_live_pod; [reflexivity | reflexivity | repeat constructor].
  - rewrite Phase_live_pod; [reflexivity | reflexivity | constructor].
  - rewrite Phase_live_pod; [reflexivity | reflexivity | constructor].
Defined.

(** X16.  Deletion does not override the init containers: for a pod whose
    node is not lost and that has an init container which has not
    terminated with exit code 0, the phase starts with "Init:", also when
    the pod is being deleted, and so is never "Terminating". *)
Theorem Phase_init_beats_deletion (po : Pod.t) :
  node_lost po = false →
  Exists (λ c, init_done c = false) (PodStatus.InitContainerStatuses (Pod.Status po)) →
  String.prefix "Init:" (Phase po) = true ∧ Phase po ≠ Terminating.
Proof.
  intros Hlost Hinit. rewrite Phase_cases, Hlost.
  pose proof (initContainerPhase_loop_undone _ 0
    (len (PodSpec.InitContainers (Pod.Spec po))) (base_label po) Hinit) as Hok.
  unfold initContainerPhase.
  destruct (initContainerPhase_loop _ 0 _ _) as [l ok] eqn:Hl.
  simpl in Hok. subst ok.
  apply initContainerPhase_loop_override in Hl.
  split; [done|]. intros ->. discriminate.
Qed.

Lemma Phase_init_beats_deletion_witness :
  String.prefix "Init:"
    (Phase (pod_with (ref 1700000100) "" [cs_init_ok; cs_init_waiting] [cs_ready]))
  = true
  ∧ Phase (pod_with (ref 1700000100) "" [cs_init_ok; cs_init_waiting] [cs_ready])
    ≠ "Terminating".
Proof.
  apply Phase_init_beats_deletion.
  - reflexivity.
  - apply Exists_cons_tl, Exists_cons_hd. reflexivity.
Defined.

(** ** Further properties of the rendered row *)

Lemma gatherPodMX_returns `{Helpers} po mx :
  ∃ c p r, gatherPodMX po mx = Some (c, p, r).
Proof.
  destruct mx as [|mxv]; [by eexists _, _, _|].
  destruct (podRequests_total (Pod.Spec po)) as (rc & rm & Hreq).
  destruct (podLimits_total (Pod.Spec po)) as (lc & lm & Hlim).
  destruct (gatherPodMX_snapshot po mxv rc rm lc lm Hreq Hlim) as [r Hr].
  eauto.
Qed.

(** X17.  [Render] produces a row for every pod, with or without a
    snapshot, and the row has one field per column of [Header]: the NAME
    and NAMESPACE columns hold the pod's name and namespace, READY holds
    "<ready>/<number of statuses>", STATUS holds the phase and QOS the short
    code of the pod's class. *)
Theorem Render_row_shape `{Helpers} (po : Pod.t) (mx : ptr PodMetrics.t) :
  ∃ row,
    Render po mx = Some row
    ∧ length (Row.Fields row) = length Header
    ∧ column "NAMESPACE" row = Some (ObjectMeta.Namespace (Pod.Meta po))
    ∧ column "NAME" row = Some (ObjectMeta.Name (Pod.Meta po))
    ∧ column "READY" row =
      Some (strconv.Itoa (Statuses (PodStatus.ContainerStatuses (Pod.Status po))).1.1
            +:+ "/" +:+ strconv.Itoa (len (PodStatus.ContainerStatuses (Pod.Status po))))
    ∧ column "STATUS" row = Some (Phase po)
    ∧ column "QOS" row = Some (mapQOS (PodStatus.QOSClass (Pod.Status po))).
Proof.
  destruct (gatherPodMX_returns po mx) as (c & p & r & Hg).
  unfold Render. destruct (Statuses _) as [[cr ct] rc]. rewrite Hg. simpl.
  eexists. split; [reflexivity|]. repeat split.
Qed.



